(** * Lead to Opportunity Speed: the join-and-aggregate pipeline

    A shallow embedding of [src/main.py] (the batch run) and
    [src/dashboard.py] (the interactive page).  Both files contain the same
    business logic: two fetchers feed an inner join on the e-mail address,
    the earliest event of every e-mail is kept, negative durations are
    dropped and the remaining durations are averaged.

    Conventions of the model
    - a timestamp (pandas [Timestamp], time zone removed) and a duration
      (pandas [Timedelta]) are integer numbers of nanoseconds, in [Z];
    - a [DataFrame] is the list of its rows, [df.empty] is [is_empty];
    - an e-mail is [None] when the value is null or the field is absent;
      pandas takes two null keys for equal;
    - [Series.mean()] works in binary floating point: the mean is a
      variable of the model, [mean], and nothing is assumed of it;
    - [total_seconds()] and the arithmetic done on it are exact rationals
      ([Q]);
    - Python exceptions are the [Raise] results of an error monad. *)

From Stdlib Require Import List ZArith QArith Qround String Bool Lia.
From Stdlib Require Import Permutation Sorted.
Import ListNotations.
Local Open Scope Z_scope.

(** ** Data frames *)

(** A row of [df_leads]: the columns [email] and [created_at] selected from
    the table [leads_data].  [email] is [None] when the store sends a null
    e-mail. *)
Record lead := mk_lead {
  email : option string;
  created_at : Z
}.

(** A row of [df_events]: [attendee.get('email')] is [None] when the
    attendee has no [email] field. *)
Record attendance := mk_attendance {
  attendee_email : option string;
  event_created_at : Z
}.

(** A row of [merged_df]: the columns of the lead followed by the columns of
    the event. *)
Record merged_row := mk_row {
  row_lead : lead;
  row_event : attendance
}.

(** A row of [first_call_df] once the column [speed] has been added. *)
Record conversion := mk_conversion {
  row : merged_row;
  speed : Z
}.

Definition is_empty {A : Type} (df : list A) : bool :=
  match df with
  | [] => true
  | _ :: _ => false
  end.

(** ** The join: [pd.merge(df_leads, df_events, left_on='email',
       right_on='attendee_email', how='inner')] *)

(** Two keys: strings are compared as they are, no case folding and no
    trimming; pandas takes two null keys for equal, in [merge] as in
    [drop_duplicates]. *)
Definition key_eqb (k1 k2 : option string) : bool :=
  match k1, k2 with
  | Some s1, Some s2 => String.eqb s1 s2
  | None, None => true
  | _, _ => false
  end.

Definition key_match (l : lead) (a : attendance) : bool :=
  key_eqb (email l) (attendee_email a).

(** An inner merge keeps the order of the left keys. *)
Definition merge (df_leads : list lead) (df_events : list attendance)
  : list merged_row :=
  flat_map (fun l => map (mk_row l) (filter (key_match l) df_events)) df_leads.

(** ** [drop_duplicates(subset='email', keep='first')] *)

Fixpoint drop_duplicates_from (seen : list (option string))
    (df : list merged_row)
  : list merged_row :=
  match df with
  | [] => []
  | r :: rest =>
      if existsb (key_eqb (email (row_lead r))) seen
      then drop_duplicates_from seen rest
      else r :: drop_duplicates_from (email (row_lead r) :: seen) rest
  end.

Definition drop_duplicates (df : list merged_row) : list merged_row :=
  drop_duplicates_from [] df.

(** ** The columns [speed] and its mean *)

(** [first_call_df['event_created_at'] - first_call_df['created_at']] *)
Definition add_speed (r : merged_row) : conversion :=
  mk_conversion r (event_created_at (row_event r) - created_at (row_lead r)).

(** [first_call_df['speed'] >= pd.Timedelta(0)] *)
Definition valid_speed (c : conversion) : bool := 0 <=? speed c.

Definition total (durations : list Z) : Z := fold_right Z.add 0 durations.

(** The mean without rounding: the sum divided by the count, towards zero.
    [Series.mean()] gives it when its floating-point sum and quotient are
    exact, as they are in the concrete runs of this file, where it stands
    for the mean; the general statements hold for any function in its
    place. *)
Definition exact_mean (durations : list Z) : Z :=
  Z.quot (total durations) (Z.of_nat (List.length durations)).

(** ** The order of [sort_values(by='event_created_at', ascending=True)] *)

Definition event_le (r1 r2 : merged_row) : Prop :=
  event_created_at (row_event r1) <= event_created_at (row_event r2).

Definition event_leb (r1 r2 : merged_row) : bool :=
  event_created_at (row_event r1) <=? event_created_at (row_event r2).

(** One sorting function: insertion from the right, which is stable. *)
Fixpoint insert_row (r : merged_row) (df : list merged_row) : list merged_row :=
  match df with
  | [] => [r]
  | r' :: rest =>
      if event_leb r r' then r :: df else r' :: insert_row r rest
  end.

Fixpoint insertion_sort (df : list merged_row) : list merged_row :=
  match df with
  | [] => []
  | r :: rest => insert_row r (insertion_sort rest)
  end.

(** ** What a run reports *)

(** The four ways the business logic ends, in the order of the source:
    the notice printed before the join, the notice for an empty join, the
    notice for no non-negative duration, and the result. *)
Inductive outcome :=
| InsufficientData
| NoLeadWithCall
| NoValidConversion
| Report (average_speed : Z) (first_call_df : list conversion).

Definition records (o : outcome) : list conversion :=
  match o with
  | Report _ df => df
  | _ => []
  end.

Definition sample_count (o : outcome) : nat := List.length (records o).

Definition mean_duration (o : outcome) : option Z :=
  match o with
  | Report m _ => Some m
  | _ => None
  end.

(** ** The business logic of [main] and of the button block *)

Section Aggregate.

(** [Series.mean()] of the column [speed]: pandas adds and divides the
    nanosecond values in binary64 floating point and cuts the quotient to
    whole nanoseconds.  That arithmetic is not modelled: the model takes
    the function that gives the mean of a column as it is. *)
Variable mean : list Z -> Z.

(** [sort_values] uses pandas' default sort, which is not stable: the model
    takes any function that returns the rows in ascending order of
    [event_created_at]. *)
Variable sort_values : list merged_row -> list merged_row.

(** [first_call_df] with its column [speed], before the negative durations
    are removed: one candidate for every e-mail of the join. *)
Definition candidates (df_leads : list lead) (df_events : list attendance)
  : list conversion :=
  let merged_df := merge df_leads df_events in
  let merged_df := sort_values merged_df in
  let first_call_df := drop_duplicates merged_df in
  map add_speed first_call_df.

Definition aggregate (df_leads : list lead) (df_events : list attendance)
  : outcome :=
  if is_empty df_leads || is_empty df_events then InsufficientData
  else
    let merged_df := merge df_leads df_events in
    let merged_df := sort_values merged_df in
    let first_call_df := drop_duplicates merged_df in
    if is_empty first_call_df then NoLeadWithCall
    else
      let first_call_df := map add_speed first_call_df in
      let first_call_df := filter valid_speed first_call_df in
      if is_empty first_call_df then NoValidConversion
      else Report (mean (map speed first_call_df)) first_call_df.

End Aggregate.

(** ** The presenters *)

(** [Timedelta.total_seconds()] *)
Definition total_seconds (td : Z) : Q := inject_Z td / inject_Z 1000000000.

(** Python's [//] and [%] on floats, for a positive divisor. *)
Definition floordiv (a b : Q) : Q := inject_Z (Qfloor (a / b)).

Definition modulo (a b : Q) : Q := a - b * floordiv a b.

(** Python's [int()] rounds towards zero. *)
Definition int (x : Q) : Z := if Qle_bool 0 x then Qfloor x else Qceiling x.

(** [dashboard.py]: the text of the metric, [days] and [hours]. *)
Definition dashboard_metric (average_speed : Z) : Z * Z :=
  let total_seconds := total_seconds average_speed in
  let days := int (floordiv total_seconds (inject_Z 86400)) in
  let hours := int (floordiv (modulo total_seconds (inject_Z 86400)) (inject_Z 3600)) in
  (days, hours).

(** [main.py]: [days], [hours] and [minutes] of the printed line. *)
Definition cli_metric (average_speed : Z) : Z * Z * Z :=
  let total_seconds := total_seconds average_speed in
  let days := floordiv total_seconds (inject_Z 86400) in
  let hours := floordiv (modulo total_seconds (inject_Z 86400)) (inject_Z 3600) in
  let minutes := floordiv (modulo total_seconds (inject_Z 3600)) (inject_Z 60) in
  (int days, int hours, int minutes).

(** What the dashboard shows after the button: a warning, or the two
    metrics (the mean as days and hours, and the number of leads). *)
Inductive display :=
| Warning (notice : outcome)
| Metrics (days hours : Z) (leads : nat).

Definition present (o : outcome) : display :=
  match o with
  | Report average_speed first_call_df =>
      let (days, hours) := dashboard_metric average_speed in
      Metrics days hours (List.length first_call_df)
  | notice => Warning notice
  end.

(** What [main] prints at the end: nothing but a notice, or the number of
    leads and the mean as days, hours and minutes. *)
Definition print_result (o : outcome) : option (nat * (Z * Z * Z)) :=
  match o with
  | Report average_speed first_call_df =>
      Some (List.length first_call_df, cli_metric average_speed)
  | _ => None
  end.

(** ** Exceptions *)

Inductive exn :=
| HttpError                 (* googleapiclient.errors.HttpError *)
| KeyError (key : string)   (* a missing dictionary key or column *)
| ValueError                (* a text that is not a timestamp *)
| OtherError (class : string). (* any other class: transport, refresh, ... *)

Inductive result (A : Type) :=
| Ok (a : A)
| Raise (e : exn).

Arguments Ok {A} a.
Arguments Raise {A} e.

Definition bind {A B : Type} (c : result A) (k : A -> result B) : result B :=
  match c with
  | Ok a => k a
  | Raise e => Raise e
  end.

Notation "x <- c ;; k" := (bind c (fun x => k))
  (at level 61, c at next level, right associativity).

(** [d.get(key, default)] *)
Definition get {A : Type} (field : option A) (default : A) : A :=
  match field with
  | Some v => v
  | None => default
  end.

(** A statement that may raise and returns nothing. *)
Definition run (failure : option exn) : result unit :=
  match failure with
  | Some e => Raise e
  | None => Ok tt
  end.

(** ** What the calendar service answers *)

Module Api.

(** The text of a [created] field: [pd.to_datetime] accepts it and gives a
    timestamp, or rejects it. *)
Inductive timestamp :=
| Parseable (t : Z)
| Unparseable.

Record attendee := mk_attendee {
  email : option string;
  self : option bool;
  resource : option bool
}.

(** [created] is [None] when the field is absent or empty (both are falsy). *)
Record event := mk_event {
  created : option timestamp;
  attendees : option (list attendee)
}.

(** A calendar of the list, with the answer of
    [service.events().list(calendarId=id, ...).execute()] for it. *)
Record calendar := mk_calendar {
  id : option string;
  events : result (option (list event))
}.

End Api.

(** Everything [get_google_calendar_events] asks of the outside: the
    credentials (token file, refresh, consent flow), the construction of the
    client and the list of calendars. *)
Record google := mk_google {
  credentials : option exn;
  build : option exn;
  calendarList : result (option (list Api.calendar))
}.

(** An entry of [processed_events]. *)
Record processed_event := mk_processed {
  processed_email : option string;
  processed_created : Api.timestamp
}.

Inductive diagnostic :=
| NoEventFound
| CalendarError (e : exn).

Definition fetched : Type := list attendance * option diagnostic.

(** ** The parts the two fetchers share *)

(** The loop over [calendars]; [calendar['id']] raises when there is none. *)
Fixpoint list_events (calendars : list Api.calendar) (all_events : list Api.event)
  : result (list Api.event) :=
  match calendars with
  | [] => Ok all_events
  | calendar :: rest =>
      match Api.id calendar with
      | None => Raise (KeyError "id")
      | Some _ =>
          events_result <- Api.events calendar ;;
          list_events rest (all_events ++ get events_result [])
      end
  end.

(** [not attendee.get('self', False) and not attendee.get('resource', False)] *)
Definition qualifies (attendee : Api.attendee) : bool :=
  negb (get (Api.self attendee) false) && negb (get (Api.resource attendee) false).

(** The loop over [attendees]. *)
Fixpoint append_attendees (creation_date : Api.timestamp)
    (attendees : list Api.attendee) (processed_events : list processed_event)
  : list processed_event :=
  match attendees with
  | [] => processed_events
  | attendee :: rest =>
      append_attendees creation_date rest
        (if qualifies attendee
         then processed_events ++ [mk_processed (Api.email attendee) creation_date]
         else processed_events)
  end.

(** [pd.to_datetime(df_events['event_created_at']).dt.tz_localize(None)] *)
Fixpoint to_datetime (processed_events : list processed_event)
  : result (list attendance) :=
  match processed_events with
  | [] => Ok []
  | p :: rest =>
      match processed_created p with
      | Api.Unparseable => Raise ValueError
      | Api.Parseable t =>
          df_events <- to_datetime rest ;;
          Ok (mk_attendance (processed_email p) t :: df_events)
      end
  end.

(** [pd.DataFrame(processed_events)] followed by the access to the column
    [event_created_at]: a frame made from an empty list has no column. *)
Definition DataFrame (processed_events : list processed_event)
  : result (list attendance) :=
  if is_empty processed_events then Raise (KeyError "event_created_at")
  else to_datetime processed_events.

(** ** What the lead store answers *)

(** A row of [response.data]: the two selected columns as the store sends
    them, the e-mail ([None] when it is null) and the text of the creation
    date. *)
Record lead_data := mk_lead_data {
  data_email : option string;
  data_created_at : Api.timestamp
}.

(** [create_client(SUPABASE_URL, SUPABASE_KEY)] and
    [supabase.table('leads_data').select('email, created_at').execute()];
    [response.data] is the empty list when the table has no row. *)
Record supabase := mk_supabase {
  create_client : option exn;
  execute : result (list lead_data)
}.

Inductive lead_diagnostic :=
| NoLeadFound
| SupabaseError (e : exn).

Definition fetched_leads : Type := list lead * option lead_diagnostic.

(** [pd.to_datetime(df_leads['created_at']).dt.tz_localize(None)] *)
Fixpoint leads_to_datetime (leads_data : list lead_data) : result (list lead) :=
  match leads_data with
  | [] => Ok []
  | d :: rest =>
      match data_created_at d with
      | Api.Unparseable => Raise ValueError
      | Api.Parseable t =>
          df_leads <- leads_to_datetime rest ;;
          Ok (mk_lead (data_email d) t :: df_leads)
      end
  end.

(** [pd.DataFrame(leads_data)] followed by the access to the column
    [created_at]: a frame made from no row has no column. *)
Definition leads_DataFrame (leads_data : list lead_data) : result (list lead) :=
  if is_empty leads_data then Raise (KeyError "created_at")
  else leads_to_datetime leads_data.

(** ** The components of a [Timedelta] *)

(** [Timedelta.days] and [Timedelta.seconds]: whole days, rounded down, and
    the whole seconds of the rest of the day. *)
Definition timedelta_days (td : Z) : Z := td / 86400000000000.

Definition timedelta_seconds (td : Z) : Z :=
  (td mod 86400000000000) / 1000000000.

(** ** [src/main.py] *)

Module Main.

Fixpoint process (all_events : list Api.event)
    (processed_events : list processed_event) : list processed_event :=
  match all_events with
  | [] => processed_events
  | event :: rest =>
      match Api.created event with
      | None => process rest processed_events
      | Some creation_date =>
          let attendees := get (Api.attendees event) [] in
          process rest (append_attendees creation_date attendees processed_events)
      end
  end.

(** The body of the [try]. *)
Definition try_body (g : google) : result fetched :=
  _ <- run (build g) ;;
  calendar_list_result <- calendarList g ;;
  let calendars := get calendar_list_result [] in
  all_events <- list_events calendars [] ;;
  if is_empty all_events then Ok ([], Some NoEventFound)
  else
    let processed_events := process all_events [] in
    df_events <- DataFrame processed_events ;;
    Ok (df_events, None).

(** [except HttpError as error] *)
Definition get_google_calendar_events (g : google) : result fetched :=
  _ <- run (credentials g) ;;
  match try_body g with
  | Raise HttpError => Ok ([], Some (CalendarError HttpError))
  | r => r
  end.

(** [main], from the leads already fetched. *)
Definition main (mean : list Z -> Z)
    (sort_values : list merged_row -> list merged_row)
    (df_leads : list lead) (g : google) : result (option (nat * (Z * Z * Z))) :=
  df_events <- get_google_calendar_events g ;;
  Ok (print_result (aggregate mean sort_values df_leads (fst df_events))).

(** [get_supabase_leads]: [except Exception as e] *)
Definition get_supabase_leads (s : supabase) : result fetched_leads :=
  match
    (leads_data <- execute s ;;
     if is_empty leads_data then Ok ([], Some NoLeadFound)
     else
       df_leads <- leads_DataFrame leads_data ;;
       Ok (df_leads, None))
  with
  | Raise e => Ok ([], Some (SupabaseError e))
  | r => r
  end.

(** The script: the client is made when the module is loaded, then [main]
    fetches the leads and the events. *)
Definition script (mean : list Z -> Z)
    (sort_values : list merged_row -> list merged_row)
    (s : supabase) (g : google) : result (option (nat * (Z * Z * Z))) :=
  _ <- run (create_client s) ;;
  df_leads <- get_supabase_leads s ;;
  main mean sort_values (fst df_leads) g.

End Main.

(** ** [src/dashboard.py] *)

Module Dashboard.

Fixpoint process (all_events : list Api.event)
    (processed_events : list processed_event) : list processed_event :=
  match all_events with
  | [] => processed_events
  | event :: rest =>
      match Api.created event, Api.attendees event with
      | Some creation_date, Some ((_ :: _) as attendees) =>
          process rest (append_attendees creation_date attendees processed_events)
      | _, _ => process rest processed_events
      end
  end.

(** The body of the [try]. *)
Definition try_body (g : google) : result fetched :=
  _ <- run (build g) ;;
  calendar_list_result <- calendarList g ;;
  let calendars := get calendar_list_result [] in
  all_events <- list_events calendars [] ;;
  let processed_events := process all_events [] in
  df_events <- DataFrame processed_events ;;
  Ok (df_events, None).

(** [except Exception as e] *)
Definition get_google_calendar_events (g : google) : result fetched :=
  _ <- run (credentials g) ;;
  match try_body g with
  | Raise e => Ok ([], Some (CalendarError e))
  | r => r
  end.

(** The block of the button, from the leads already fetched. *)
Definition button (mean : list Z -> Z)
    (sort_values : list merged_row -> list merged_row)
    (df_leads : list lead) (g : google) : result display :=
  df_events <- get_google_calendar_events g ;;
  Ok (present (aggregate mean sort_values df_leads (fst df_events))).

(** [get_supabase_leads]: the client is made before the [try]. *)
Definition get_supabase_leads (s : supabase) : result fetched_leads :=
  _ <- run (create_client s) ;;
  match
    (leads_data <- execute s ;;
     df_leads <- leads_DataFrame leads_data ;;
     Ok (df_leads, None))
  with
  | Raise e => Ok ([], Some (SupabaseError e))
  | r => r
  end.

(** A row of the table of details: the e-mail, the two dates and the text
    of the conversion time, [x.days] and [x.seconds//3600]. *)
Definition conversion_time (x : Z) : Z * Z :=
  (timedelta_days x, timedelta_seconds x / 3600).

Definition display_df (first_call_df : list conversion)
  : list (option string * Z * Z * (Z * Z)) :=
  map (fun c => (email (row_lead (row c)),
                 created_at (row_lead (row c)),
                 event_created_at (row_event (row c)),
                 conversion_time (speed c)))
      first_call_df.

(** One click on the button: the leads, the events, the metrics. *)
Definition click (mean : list Z -> Z)
    (sort_values : list merged_row -> list merged_row)
    (s : supabase) (g : google) : result display :=
  df_leads <- get_supabase_leads s ;;
  button mean sort_values (fst df_leads) g.

End Dashboard.

(** ** The selection as the specification words it *)

(** "Group joined rows by email; within each group, sort by
    event_created_at ascending and take the first (earliest) row." *)

Definition has_email (e : option string) (r : merged_row) : bool :=
  key_eqb (email (row_lead r)) e.

Definition group (joined : list merged_row) (e : option string) : list merged_row :=
  filter (has_email e) joined.

Definition spec_candidate (sort_values : list merged_row -> list merged_row)
    (joined : list merged_row) (e : option string) : option merged_row :=
  hd_error (sort_values (group joined e)).

(** The first row of a frame that has a given e-mail, as a frame. *)
Definition first_with (e : option string) (df : list merged_row) : list merged_row :=
  match find (has_email e) df with
  | Some r => [r]
  | None => []
  end.

(** The row the source selects for an e-mail. *)
Definition selected (sort_values : list merged_row -> list merged_row)
    (joined : list merged_row) (e : option string)
  : list merged_row :=
  filter (has_email e) (drop_duplicates (sort_values joined)).

(** The duration of a retained record, from its two timestamps. *)
Definition duration (c : conversion) : Z :=
  event_created_at (row_event (row c)) - created_at (row_lead (row c)).

(** ** Reading the fetchers *)

(** The entries one event contributes to [processed_events]: one for every
    attendee that is neither the user nor a resource, when the event has a
    creation date. *)
Definition records_of_event (event : Api.event) : list processed_event :=
  match Api.created event with
  | Some creation_date =>
      map (fun attendee => mk_processed (Api.email attendee) creation_date)
          (filter qualifies (get (Api.attendees event) []))
  | None => []
  end.

(** The events of all the calendars, when every call succeeds. *)
Definition all_events_of (g : google) : result (list Api.event) :=
  calendar_list_result <- calendarList g ;;
  list_events (get calendar_list_result []) [].

(** A row of the returned frame is an entry of [processed_events] with its
    date parsed. *)
Definition same_record (p : processed_event) (a : attendance) : Prop :=
  processed_email p = attendee_email a /\
  processed_created p = Api.Parseable (event_created_at a).

(** A calendar whose events are listed without an error. *)
Definition listed (calendar : Api.calendar) : Prop :=
  Api.id calendar <> None /\ exists events_result, Api.events calendar = Ok events_result.

(** The calendar service raises [e]: at the construction of the client, at
    the list of calendars, or at the list of events of a calendar after the
    calendars before it were listed. *)
Definition service_raises (g : google) (e : exn) : Prop :=
  build g = Some e \/
  (build g = None /\ calendarList g = Raise e) \/
  (build g = None /\
   exists calendar_list_result before calendar after,
     calendarList g = Ok calendar_list_result /\
     get calendar_list_result [] = before ++ calendar :: after /\
     Forall listed before /\
     Api.id calendar <> None /\ Api.events calendar = Raise e).

(** The events of one calendar, when its list succeeds. *)
Definition calendar_items (calendar : Api.calendar) : list Api.event :=
  match Api.events calendar with
  | Ok events_result => get events_result []
  | Raise _ => []
  end.

(** A row of the frame of leads is a row of [response.data] with its date
    parsed. *)
Definition same_lead (d : lead_data) (l : lead) : Prop :=
  data_email d = email l /\
  data_created_at d = Api.Parseable (created_at l).

(** The order of the records of a result, by the date of the event. *)
Definition earlier_event (c1 c2 : conversion) : Prop :=
  event_created_at (row_event (row c1)) <= event_created_at (row_event (row c2)).

(** A record that pairs a lead with the earliest of the events of its
    e-mail, when that event is not before the lead. *)
Definition earliest_valid_match (df_leads : list lead)
    (df_events : list attendance) (c : conversion) : Prop :=
  c = add_speed (row c) /\
  In (row_lead (row c)) df_leads /\ In (row_event (row c)) df_events /\
  attendee_email (row_event (row c)) = email (row_lead (row c)) /\
  (forall a, In a df_events ->
             attendee_email a = email (row_lead (row c)) ->
             event_created_at (row_event (row c)) <= event_created_at a) /\
  0 <= duration c.

(** * Properties *)

(** ** Keys *)

Lemma key_eqb_eq k1 k2 : key_eqb k1 k2 = true <-> k1 = k2.
Proof.
  destruct k1 as [s1|], k2 as [s2|]; simpl;
    try (split; [discriminate | discriminate]); [|tauto].
  rewrite String.eqb_eq. split; [now intros -> | now intros [= ->]].
Qed.

Lemma key_eqb_refl k : key_eqb k k = true.
Proof.
  now apply key_eqb_eq.
Qed.

Lemma key_eqb_sym k1 k2 : key_eqb k1 k2 = key_eqb k2 k1.
Proof.
  destruct k1, k2; simpl; try reflexivity. apply String.eqb_sym.
Qed.

(** ** The sorting function used for concrete runs *)

Lemma insert_row_perm r df : Permutation (insert_row r df) (r :: df).
Proof.
  induction df as [|r' rest IH]; simpl.
  - apply Permutation_refl.
  - destruct (event_leb r r').
    + apply Permutation_refl.
    + eapply perm_trans; [apply perm_skip, IH | apply perm_swap].
Qed.

Lemma insertion_sort_perm df : Permutation (insertion_sort df) df.
Proof.
  induction df as [|r rest IH]; simpl.
  - apply perm_nil.
  - eapply perm_trans; [apply insert_row_perm | apply perm_skip, IH].
Qed.

Lemma insert_row_hd r df x :
  event_le x r -> HdRel event_le x df -> HdRel event_le x (insert_row r df).
Proof.
  intros Hxr Hhd. destruct df as [|r' rest]; simpl.
  - constructor. exact Hxr.
  - destruct (event_leb r r'); constructor.
    + exact Hxr.
    + inversion Hhd; assumption.
Qed.

Lemma insert_row_sorted r df :
  Sorted event_le df -> Sorted event_le (insert_row r df).
Proof.
  induction 1 as [|r' rest Hs IH Hhd]; simpl.
  - repeat constructor.
  - destruct (event_leb r r') eqn:E; unfold event_leb in E.
    + constructor; [constructor; assumption|].
      constructor. unfold event_le. lia.
    + constructor; [exact IH|].
      apply insert_row_hd; [unfold event_le; lia | exact Hhd].
Qed.

Lemma insertion_sort_sorted df : Sorted event_le (insertion_sort df).
Proof.
  induction df as [|r rest IH]; simpl.
  - constructor.
  - apply insert_row_sorted, IH.
Qed.

(** ** The join *)

Lemma key_match_spec l a :
  key_match l a = true <-> attendee_email a = email l.
Proof.
  unfold key_match. rewrite key_eqb_eq. split; congruence.
Qed.

Lemma in_merge df_leads df_events r :
  In r (merge df_leads df_events) <->
  In (row_lead r) df_leads /\ In (row_event r) df_events /\
  attendee_email (row_event r) = email (row_lead r).
Proof.
  unfold merge. rewrite in_flat_map. split.
  - intros (l & Hl & Hr). apply in_map_iff in Hr as (a & <- & Ha).
    apply filter_In in Ha as [Ha Hk]. apply key_match_spec in Hk.
    simpl. auto.
  - intros (Hl & Ha & Hk). exists (row_lead r). split; [exact Hl|].
    apply in_map_iff. exists (row_event r). split.
    + destruct r; reflexivity.
    + apply filter_In. split; [exact Ha | now apply key_match_spec].
Qed.

Lemma merge_nil_r df_leads : merge df_leads [] = [].
Proof.
  induction df_leads as [|l rest IH]; [reflexivity | exact IH].
Qed.

(** ** [drop_duplicates] keeps, for every e-mail, the first row that has it *)

Lemma filter_drop_duplicates_from e df : forall seen,
  filter (has_email e) (drop_duplicates_from seen df) =
  if existsb (key_eqb e) seen then [] else first_with e df.
Proof.
  unfold first_with.
  induction df as [|r rest IH]; intros seen; simpl.
  - now destruct (existsb _ seen).
  - destruct (existsb (key_eqb (email (row_lead r))) seen) eqn:Er.
    + rewrite IH. destruct (existsb (key_eqb e) seen) eqn:Ee; [reflexivity|].
      destruct (has_email e r) eqn:Eh; [|reflexivity].
      apply key_eqb_eq in Eh. congruence.
    + destruct (has_email e r) eqn:Eh; simpl; rewrite Eh, IH; simpl.
      * apply key_eqb_eq in Eh. rewrite <- Eh, key_eqb_refl, Er. reflexivity.
      * unfold has_email in Eh. rewrite key_eqb_sym in Eh. now rewrite Eh.
Qed.

Lemma filter_drop_duplicates e df :
  filter (has_email e) (drop_duplicates df) = first_with e df.
Proof.
  unfold drop_duplicates. now rewrite filter_drop_duplicates_from.
Qed.

Lemma in_drop_duplicates r df :
  In r (drop_duplicates df) <-> find (has_email (email (row_lead r))) df = Some r.
Proof.
  pose proof (filter_drop_duplicates (email (row_lead r)) df) as H.
  unfold first_with in H. split.
  - intros Hin.
    assert (Hf : In r (filter (has_email (email (row_lead r))) (drop_duplicates df))).
    { apply filter_In. split; [exact Hin | apply key_eqb_refl]. }
    rewrite H in Hf. destruct (find _ df) as [r0|]; simpl in Hf.
    + destruct Hf as [->|[]]. reflexivity.
    + contradiction.
  - intros Hfind. rewrite Hfind in H.
    assert (Hf : In r (filter (has_email (email (row_lead r))) (drop_duplicates df))).
    { rewrite H. now left. }
    now apply filter_In in Hf.
Qed.

Lemma find_sorted_least (p : merged_row -> bool) df r :
  StronglySorted event_le df -> find p df = Some r ->
  forall r', In r' df -> p r' = true -> event_le r r'.
Proof.
  induction 1 as [|x rest Hs IH Hall]; simpl; [discriminate|].
  destruct (p x) eqn:Ex.
  - intros [= <-] r' [<-|Hin] _.
    + unfold event_le. lia.
    + rewrite Forall_forall in Hall. now apply Hall.
  - intros Hfind r' [<-|Hin] Hp; [congruence|].
    now apply IH.
Qed.

Lemma event_le_trans : Relations_1.Transitive event_le.
Proof.
  intros x y z. unfold event_le. lia.
Qed.

(** ** The business logic, for any sorting function *)

Section AggregateFacts.

Variable mean : list Z -> Z.

Variable sort_values : list merged_row -> list merged_row.
Hypothesis sort_values_perm : forall df, Permutation (sort_values df) df.
Hypothesis sort_values_sorted : forall df, Sorted event_le (sort_values df).

Lemma in_sort_values r df : In r (sort_values df) <-> In r df.
Proof.
  split; apply Permutation_in;
    [apply sort_values_perm | apply Permutation_sym, sort_values_perm].
Qed.

Lemma sort_values_nil : sort_values [] = [].
Proof.
  apply Permutation_nil, Permutation_sym, sort_values_perm.
Qed.

Lemma sort_values_strongly_sorted df : StronglySorted event_le (sort_values df).
Proof.
  apply Sorted_StronglySorted; [exact event_le_trans | apply sort_values_sorted].
Qed.

(** The final records are the candidates whose [speed] is not negative,
    whichever notice or result the run ends with. *)
Lemma records_aggregate df_leads df_events :
  records (aggregate mean sort_values df_leads df_events) =
  filter valid_speed (candidates sort_values df_leads df_events).
Proof.
  unfold aggregate, candidates.
  destruct df_events as [|a evs].
  { rewrite merge_nil_r, sort_values_nil, orb_true_r. reflexivity. }
  destruct df_leads as [|l ls].
  { simpl. now rewrite sort_values_nil. }
  cbn [is_empty orb].
  destruct (drop_duplicates _) as [|r rs]; simpl; [reflexivity|].
  destruct (valid_speed (add_speed r)); simpl; [reflexivity|].
  destruct (filter valid_speed (map add_speed rs)); reflexivity.
Qed.

(** A candidate is the first row of its e-mail in the sorted join. *)
Lemma in_candidates df_leads df_events c :
  In c (candidates sort_values df_leads df_events) <->
  c = add_speed (row c) /\
  find (has_email (email (row_lead (row c))))
       (sort_values (merge df_leads df_events)) = Some (row c).
Proof.
  unfold candidates. rewrite in_map_iff. split.
  - intros (r & <- & Hr). simpl. split; [reflexivity|].
    now apply in_drop_duplicates.
  - intros [Hc Hf]. exists (row c). split; [now symmetry|].
    now apply in_drop_duplicates.
Qed.

(** The first row of an e-mail in the sorted join is a match of that e-mail
    and no match of that e-mail has an earlier event. *)
Lemma first_row_earliest df_leads df_events e r :
  find (has_email e) (sort_values (merge df_leads df_events)) = Some r ->
  email (row_lead r) = e /\
  In (row_lead r) df_leads /\ In (row_event r) df_events /\
  attendee_email (row_event r) = e /\
  forall a, In a df_events -> attendee_email a = e ->
            event_created_at (row_event r) <= event_created_at a.
Proof.
  intros Hf. pose proof (find_some _ _ Hf) as [Hin He].
  apply key_eqb_eq in He. apply in_sort_values, in_merge in Hin.
  destruct Hin as (Hl & Ha & Hk). rewrite He in Hk.
  repeat split; try assumption.
  intros a Hain Hak.
  apply (find_sorted_least _ _ _ (sort_values_strongly_sorted _) Hf
           (mk_row (row_lead r) a)).
  - apply in_sort_values, in_merge. simpl. rewrite He. auto.
  - unfold has_email. simpl. rewrite He. apply key_eqb_refl.
Qed.

(** An e-mail that has a match has a first row in the sorted join. *)
Lemma first_row_exists df_leads df_events l a :
  In l df_leads -> In a df_events -> attendee_email a = email l ->
  exists r, find (has_email (email l))
                 (sort_values (merge df_leads df_events)) = Some r.
Proof.
  intros Hl Ha Hk.
  destruct (find _ (sort_values (merge df_leads df_events))) as [r|] eqn:Hf.
  - now exists r.
  - exfalso. pose proof (find_none _ _ Hf (mk_row l a)) as Hn.
    unfold has_email in Hn. simpl in Hn. rewrite key_eqb_refl in Hn.
    assert (true = false); [|discriminate].
    apply Hn, in_sort_values, in_merge. simpl. auto.
Qed.

(** C4: when the frame of leads or the frame of events is empty the run ends
    at once with the notice for insufficient data: the count is 0, there is
    no record and no mean, and the notice is not the one of an empty join.
    Nothing is assumed of [sort_values]: the result does not depend on what
    the later steps would compute. *)
Theorem empty_input_is_insufficient_data df_leads df_events :
  df_leads = [] \/ df_events = [] ->
  aggregate mean sort_values df_leads df_events = InsufficientData /\
  sample_count (aggregate mean sort_values df_leads df_events) = 0%nat /\
  records (aggregate mean sort_values df_leads df_events) = [] /\
  mean_duration (aggregate mean sort_values df_leads df_events) = None /\
  aggregate mean sort_values df_leads df_events <> NoLeadWithCall.
Proof.
  intros H.
  assert (E : aggregate mean sort_values df_leads df_events = InsufficientData).
  { unfold aggregate. destruct H as [-> | ->].
    - reflexivity.
    - now rewrite orb_true_r. }
  rewrite E. repeat split. discriminate.
Qed.

(** C7: a lead and an attendance are joined exactly when the two e-mails are
    equal, character for character (two null e-mails are equal keys); when
    no lead has the e-mail of any attendance the count is 0. *)
Theorem join_is_exact_string_equality df_leads df_events :
  (forall l a, key_match l a = true <-> attendee_email a = email l) /\
  (forall r, In r (merge df_leads df_events) <->
             In (row_lead r) df_leads /\ In (row_event r) df_events /\
             attendee_email (row_event r) = email (row_lead r)) /\
  ((forall l a, In l df_leads -> In a df_events ->
                attendee_email a <> email l) ->
   sample_count (aggregate mean sort_values df_leads df_events) = 0%nat).
Proof.
  split; [exact key_match_spec|]. split; [apply in_merge|].
  intros Hno. unfold sample_count. rewrite records_aggregate.
  destruct (filter valid_speed (candidates sort_values df_leads df_events))
    as [|c cs] eqn:E; [reflexivity|].
  exfalso.
  assert (Hc : In c (filter valid_speed (candidates sort_values df_leads df_events))).
  { rewrite E. now left. }
  apply filter_In in Hc as [Hc _]. apply in_candidates in Hc as [_ Hf].
  apply first_row_earliest in Hf as (_ & Hl & Ha & Hk & _).
  apply (Hno _ _ Hl Ha). now rewrite Hk.
Qed.

(** C3: every record of the result has a duration that is not negative, so
    no record pairs a lead with an event created strictly before it; of
    the candidates exactly those with a negative duration are removed, and
    a candidate whose duration is zero stays. *)
Theorem records_have_nonnegative_duration df_leads df_events :
  (forall c, In c (records (aggregate mean sort_values df_leads df_events)) ->
             speed c = duration c /\ 0 <= duration c /\
             ~ event_created_at (row_event (row c)) < created_at (row_lead (row c))) /\
  (forall c, In c (candidates sort_values df_leads df_events) ->
             (In c (records (aggregate mean sort_values df_leads df_events)) <->
              0 <= duration c)) /\
  (forall c, In c (candidates sort_values df_leads df_events) ->
             duration c = 0 ->
             In c (records (aggregate mean sort_values df_leads df_events))).
Proof.
  assert (Hspeed : forall c, In c (candidates sort_values df_leads df_events) ->
                             speed c = duration c).
  { intros c Hc. apply in_candidates in Hc as [Hc _]. now rewrite Hc. }
  assert (Hiff : forall c, In c (candidates sort_values df_leads df_events) ->
                   (In c (records (aggregate mean sort_values df_leads df_events)) <->
                    0 <= duration c)).
  { intros c Hc. rewrite records_aggregate, filter_In. unfold valid_speed.
    rewrite Z.leb_le, (Hspeed c Hc). tauto. }
  repeat split.
  - apply Hspeed. rewrite records_aggregate in H. now apply filter_In in H.
  - rewrite records_aggregate in H. apply filter_In in H as [Hc Hv].
    unfold valid_speed in Hv. rewrite (Hspeed c Hc) in Hv. lia.
  - rewrite records_aggregate in H. apply filter_In in H as [Hc Hv].
    unfold valid_speed in Hv. rewrite (Hspeed c Hc) in Hv.
    unfold duration in Hv. lia.
  - now apply Hiff.
  - now apply Hiff.
  - intros c Hc Hz. apply Hiff; [exact Hc | lia].
Qed.

(** C5: sorting the whole join and keeping the first row of every e-mail
    selects, for every e-mail of the join, exactly one row; that row
    belongs to the group of the e-mail, no row of the group has an earlier
    event, and its event time is the event time of the row obtained by
    sorting the group alone and taking its first row. *)
Theorem selection_refines_grouping joined e :
  In e (map (fun r => email (row_lead r)) joined) ->
  exists r r0,
    selected sort_values joined e = [r] /\
    spec_candidate sort_values joined e = Some r0 /\
    In r (group joined e) /\ In r0 (group joined e) /\
    (forall r', In r' (group joined e) -> event_le r r') /\
    (forall r', In r' (group joined e) -> event_le r0 r') /\
    event_created_at (row_event r) = event_created_at (row_event r0).
Proof.
  intros He. apply in_map_iff in He as (x & Hx & Hin).
  assert (Hgx : In x (group joined e)).
  { apply filter_In. split; [exact Hin|]. unfold has_email. rewrite Hx.
    apply key_eqb_refl. }
  (* the source's selection *)
  unfold selected. rewrite filter_drop_duplicates. unfold first_with.
  destruct (find (has_email e) (sort_values joined)) as [r|] eqn:Hf.
  2:{ exfalso. pose proof (find_none _ _ Hf x) as Hn.
      apply filter_In in Hgx as [_ Hhx]. rewrite Hhx in Hn.
      assert (true = false); [|discriminate]. now apply Hn, in_sort_values. }
  pose proof (find_some _ _ Hf) as [Hrin Hre].
  assert (Hgr : In r (group joined e)).
  { apply filter_In. split; [now apply in_sort_values | exact Hre]. }
  assert (Hrmin : forall r', In r' (group joined e) -> event_le r r').
  { intros r' Hr'. apply filter_In in Hr' as [Hr' Hp].
    apply (find_sorted_least _ _ _ (sort_values_strongly_sorted _) Hf);
      [now apply in_sort_values | exact Hp]. }
  (* the selection by groups *)
  unfold spec_candidate.
  pose proof (sort_values_strongly_sorted (group joined e)) as Hs.
  destruct (sort_values (group joined e)) as [|r0 rest] eqn:Hg.
  { exfalso. apply in_sort_values in Hgx. now rewrite Hg in Hgx. }
  assert (Hgr0 : In r0 (group joined e)).
  { apply in_sort_values. rewrite Hg. now left. }
  assert (Hr0min : forall r', In r' (group joined e) -> event_le r0 r').
  { intros r' Hr'. apply in_sort_values in Hr'. rewrite Hg in Hr'.
    inversion Hs as [|? ? _ Hall]; subst. destruct Hr' as [<-|Hr'].
    - unfold event_le. lia.
    - rewrite Forall_forall in Hall. now apply Hall. }
  exists r, r0. simpl. repeat split; try assumption.
  pose proof (Hrmin r0 Hgr0). pose proof (Hr0min r Hgr).
  unfold event_le in *. lia.
Qed.

(** C1, as the code has it: a record of the result is a match of its e-mail
    whose event is the earliest of ALL the matches of that e-mail, whatever
    the sign of their durations; it has a duration that is not negative
    and it is the only record of its e-mail.  A lead whose e-mail has one
    creation time is in the result exactly when it has a match and none of
    its matching attendances precedes its creation. *)
Theorem earliest_match_kept_unless_before_lead df_leads df_events :
  (forall c, In c (records (aggregate mean sort_values df_leads df_events)) ->
     In (row_lead (row c)) df_leads /\ In (row_event (row c)) df_events /\
     attendee_email (row_event (row c)) = email (row_lead (row c)) /\
     (forall a, In a df_events ->
                attendee_email a = email (row_lead (row c)) ->
                event_created_at (row_event (row c)) <= event_created_at a) /\
     0 <= duration c /\
     (forall c', In c' (records (aggregate mean sort_values df_leads df_events)) ->
                 email (row_lead (row c')) = email (row_lead (row c)) -> c' = c)) /\
  (forall l, In l df_leads ->
     (forall l', In l' df_leads -> email l' = email l ->
                 created_at l' = created_at l) ->
     ((exists c, In c (records (aggregate mean sort_values df_leads df_events)) /\
                 email (row_lead (row c)) = email l) <->
      (exists a, In a df_events /\ attendee_email a = email l) /\
      (forall a, In a df_events -> attendee_email a = email l ->
                 created_at l <= event_created_at a))).
Proof.
  assert (Hrec : forall c,
    In c (records (aggregate mean sort_values df_leads df_events)) ->
    c = add_speed (row c) /\ 0 <= duration c /\
    find (has_email (email (row_lead (row c))))
         (sort_values (merge df_leads df_events)) = Some (row c)).
  { intros c Hc. rewrite records_aggregate in Hc.
    apply filter_In in Hc as [Hc Hv]. apply in_candidates in Hc as [Hadd Hf].
    unfold valid_speed in Hv. rewrite Hadd in Hv. apply Z.leb_le in Hv.
    auto. }
  split.
  - intros c Hc. destruct (Hrec c Hc) as (Hadd & Hd & Hf).
    destruct (first_row_earliest _ _ _ _ Hf) as (_ & Hl & Ha & Hk & Hmin).
    repeat split; try assumption.
    intros c' Hc' He. destruct (Hrec c' Hc') as (Hadd' & _ & Hf').
    rewrite He, Hf in Hf'. injection Hf' as Hrow.
    rewrite Hadd, Hadd'. now rewrite Hrow.
  - intros l Hl Hone. split.
    + intros (c & Hc & He). destruct (Hrec c Hc) as (_ & Hd & Hf).
      destruct (first_row_earliest _ _ _ _ Hf) as (_ & Hl' & Ha & Hk & Hmin).
      rewrite He in Hk, Hmin. split.
      * exists (row_event (row c)). auto.
      * intros a Ha' Hk'. pose proof (Hmin a Ha' Hk').
        pose proof (Hone _ Hl' He). unfold duration in Hd. lia.
    + intros [(a0 & Ha0 & Hk0) Hall].
      destruct (first_row_exists _ _ _ _ Hl Ha0 Hk0) as [r Hf].
      destruct (first_row_earliest _ _ _ _ Hf) as (He & Hl' & Ha & Hk & _).
      exists (add_speed r). split; [|exact He].
      rewrite records_aggregate. apply filter_In. split.
      * apply in_candidates. simpl. split; [reflexivity|]. now rewrite He.
      * unfold valid_speed. simpl. apply Z.leb_le.
        pose proof (Hall _ Ha Hk). pose proof (Hone _ Hl' He). lia.
Qed.

End AggregateFacts.

(** ** The presenters *)

Lemma int_inject_Z z : int (inject_Z z) = z.
Proof.
  unfold int. destruct (Qle_bool 0 (inject_Z z)); [apply Qfloor_Z | apply Qceiling_Z].
Qed.

Lemma floor_ratio a b c :
  0 < b -> 0 < c -> Qfloor (inject_Z a / inject_Z b / inject_Z c) = a / (b * c).
Proof.
  intros Hb Hc. rewrite Zdiv_Qdiv. apply Qfloor_comp.
  rewrite inject_Z_mult. field.
  split; intros E; unfold Qeq in E; simpl in E; lia.
Qed.

Lemma days_integer m : fst (dashboard_metric m) = m / 86400000000000.
Proof.
  unfold dashboard_metric. cbv zeta. cbn [fst]. unfold floordiv. rewrite int_inject_Z. unfold total_seconds.
  rewrite floor_ratio by lia. reflexivity.
Qed.

Lemma hours_integer m :
  snd (dashboard_metric m) = (m mod 86400000000000) / 3600000000000.
Proof.
  unfold dashboard_metric. cbv zeta. cbn [snd]. unfold floordiv at 1. rewrite int_inject_Z.
  unfold modulo, floordiv, total_seconds.
  rewrite floor_ratio by lia.
  change (1000000000 * 86400) with 86400000000000.
  rewrite Z.mod_eq by lia.
  change 3600000000000 with (1000000000 * 3600).
  rewrite <- floor_ratio by lia. apply Qfloor_comp.
  unfold Z.sub. rewrite inject_Z_plus, inject_Z_opp, inject_Z_mult.
  change (inject_Z 86400000000000) with (inject_Z 86400 * inject_Z 1000000000)%Q.
  field.
Qed.

Lemma dashboard_metric_floor m :
  dashboard_metric m =
  (Qfloor (total_seconds m / inject_Z 86400),
   Qfloor ((total_seconds m
            - inject_Z 86400 * inject_Z (Qfloor (total_seconds m / inject_Z 86400)))
           / inject_Z 3600)).
Proof.
  unfold dashboard_metric, modulo, floordiv. cbv zeta.
  now rewrite !int_inject_Z.
Qed.

Lemma cli_metric_floor m :
  fst (cli_metric m) = dashboard_metric m.
Proof.
  reflexivity.
Qed.

(** C8: for a result with at least one record both presenters show the mean
    as whole days, the floor of total_seconds / 86400, and remaining whole
    hours, the floor of (total_seconds mod 86400) / 3600, where
    total_seconds is the mean in seconds.  In whole nanoseconds these are
    the quotient by one day and the quotient by one hour of the remainder,
    and the hours are between 0 and 23. *)
Theorem mean_rendered_as_days_and_hours (o : outcome) :
  (0 < sample_count o)%nat ->
  exists m,
    mean_duration o = Some m /\
    let seconds := total_seconds m in
    let days := Qfloor (seconds / inject_Z 86400) in
    let hours :=
      Qfloor ((seconds - inject_Z 86400 * inject_Z (Qfloor (seconds / inject_Z 86400)))
              / inject_Z 3600) in
    present o = Metrics days hours (sample_count o) /\
    (exists minutes,
       print_result o = Some (sample_count o, (days, hours, minutes))) /\
    days = m / 86400000000000 /\
    hours = (m mod 86400000000000) / 3600000000000 /\
    0 <= hours < 24 /\
    (0 <= m -> 0 <= days).
Proof.
  destruct o as [| | |m df]; try (unfold sample_count; simpl; lia).
  intros _. exists m. split; [reflexivity|].
  pose proof (days_integer m) as Hd. pose proof (hours_integer m) as Hh.
  pose proof (cli_metric_floor m) as Hc.
  cbv zeta. unfold sample_count. cbn [present print_result records].
  rewrite dashboard_metric_floor in *. cbn [fst snd] in Hd, Hh.
  split; [reflexivity|]. split.
  { exists (snd (cli_metric m)). rewrite <- Hc. now destruct (cli_metric m). }
  split; [exact Hd|]. split; [exact Hh|]. rewrite Hh. split.
  - pose proof (Z.mod_pos_bound m 86400000000000 ltac:(lia)).
    split.
    + apply Z.div_pos; lia.
    + apply Z.div_lt_upper_bound; lia.
  - intros Hm. rewrite Hd. apply Z.div_pos; lia.
Qed.


(** ** Concrete runs of the business logic *)

(** C1, as the claim words it, fails: a lead created at 10 with one event at
    9 and one at 12 has a match that does not precede it (the one at 12),
    yet the run keeps no record of it: the earliest event, at 9, is
    selected first and then removed for its negative duration. *)
Lemma later_valid_match_is_not_used :
  aggregate exact_mean insertion_sort
    [mk_lead (Some "a@x.com"%string) 10]
    [mk_attendance (Some "a@x.com"%string) 9;
     mk_attendance (Some "a@x.com"%string) 12] = NoValidConversion /\
  ~ (forall l,
       In l [mk_lead (Some "a@x.com"%string) 10] ->
       (exists a,
          In a [mk_attendance (Some "a@x.com"%string) 9;
                mk_attendance (Some "a@x.com"%string) 12] /\
          attendee_email a = email l /\
          created_at l <= event_created_at a) ->
       exists c,
         In c (records (aggregate exact_mean insertion_sort
                 [mk_lead (Some "a@x.com"%string) 10]
                 [mk_attendance (Some "a@x.com"%string) 9;
                  mk_attendance (Some "a@x.com"%string) 12])) /\
         email (row_lead (row c)) = email l /\
         event_created_at (row_event (row c)) = 12).
Proof.
  split; [reflexivity|].
  intros H. destruct (H (mk_lead (Some "a@x.com"%string) 10)) as (c & Hc & _).
  - now left.
  - exists (mk_attendance (Some "a@x.com"%string) 12). simpl.
    split; [auto|]. split; [reflexivity | lia].
  - exact Hc.
Qed.

Lemma earliest_match_witness :
  (exists c,
     In c (records (aggregate exact_mean insertion_sort
             [mk_lead (Some "a@x.com"%string) 10; mk_lead (Some "b@x.com"%string) 10]
             [mk_attendance (Some "a@x.com"%string) 9;
              mk_attendance (Some "b@x.com"%string) 13;
              mk_attendance (Some "a@x.com"%string) 12;
              mk_attendance (Some "b@x.com"%string) 11])) /\
     email (row_lead (row c)) = Some "b@x.com"%string) <->
  (exists a,
     In a [mk_attendance (Some "a@x.com"%string) 9;
           mk_attendance (Some "b@x.com"%string) 13;
           mk_attendance (Some "a@x.com"%string) 12;
           mk_attendance (Some "b@x.com"%string) 11] /\
     attendee_email a = Some "b@x.com"%string) /\
  (forall a,
     In a [mk_attendance (Some "a@x.com"%string) 9;
           mk_attendance (Some "b@x.com"%string) 13;
           mk_attendance (Some "a@x.com"%string) 12;
           mk_attendance (Some "b@x.com"%string) 11] ->
     attendee_email a = Some "b@x.com"%string -> 10 <= event_created_at a).
Proof.
  apply (proj2 (earliest_match_kept_unless_before_lead exact_mean insertion_sort
                  insertion_sort_perm insertion_sort_sorted
                  [mk_lead (Some "a@x.com"%string) 10; mk_lead (Some "b@x.com"%string) 10] _)
               (mk_lead (Some "b@x.com"%string) 10)).
  - simpl. auto.
  - intros l' [<-|[<-|[]]]; simpl; intros E; [discriminate E | reflexivity].
Defined.

(** The run of that example: only the lead of [b@x.com] is kept, with its
    earliest event. *)
Example earliest_match_run :
  aggregate exact_mean insertion_sort
    [mk_lead (Some "a@x.com"%string) 10; mk_lead (Some "b@x.com"%string) 10]
    [mk_attendance (Some "a@x.com"%string) 9;
     mk_attendance (Some "b@x.com"%string) 13;
     mk_attendance (Some "a@x.com"%string) 12;
     mk_attendance (Some "b@x.com"%string) 11] =
  Report 1 [mk_conversion
              (mk_row (mk_lead (Some "b@x.com"%string) 10)
                      (mk_attendance (Some "b@x.com"%string) 11)) 1].
Proof.
  reflexivity.
Qed.

Lemma nonnegative_duration_witness :
  In (mk_conversion
        (mk_row (mk_lead (Some "a@x.com"%string) 10) (mk_attendance (Some "a@x.com"%string) 10)) 0)
     (records (aggregate exact_mean insertion_sort
                 [mk_lead (Some "a@x.com"%string) 10; mk_lead (Some "b@x.com"%string) 10]
                 [mk_attendance (Some "a@x.com"%string) 10;
                  mk_attendance (Some "b@x.com"%string) 9])).
Proof.
  apply (proj2 (proj2 (records_have_nonnegative_duration exact_mean insertion_sort
                         insertion_sort_perm
                         [mk_lead (Some "a@x.com"%string) 10; mk_lead (Some "b@x.com"%string) 10]
                         [mk_attendance (Some "a@x.com"%string) 10;
                          mk_attendance (Some "b@x.com"%string) 9]))).
  - simpl. auto.
  - reflexivity.
Defined.

Lemma empty_input_witness :
  ([] = @nil lead \/ [mk_attendance (Some "a@x.com"%string) 3] = []) /\
  aggregate exact_mean insertion_sort [] [mk_attendance (Some "a@x.com"%string) 3]
    = InsufficientData.
Proof.
  split.
  - left. reflexivity.
  - apply (empty_input_is_insufficient_data exact_mean insertion_sort []
             [mk_attendance (Some "a@x.com"%string) 3]).
    left. reflexivity.
Defined.

Lemma selection_witness :
  exists r r0,
    selected insertion_sort
      [mk_row (mk_lead (Some "a@x.com"%string) 10) (mk_attendance (Some "a@x.com"%string) 30);
       mk_row (mk_lead (Some "b@x.com"%string) 10) (mk_attendance (Some "b@x.com"%string) 5);
       mk_row (mk_lead (Some "a@x.com"%string) 10) (mk_attendance (Some "a@x.com"%string) 20)]
      (Some "a@x.com"%string) = [r] /\
    spec_candidate insertion_sort
      [mk_row (mk_lead (Some "a@x.com"%string) 10) (mk_attendance (Some "a@x.com"%string) 30);
       mk_row (mk_lead (Some "b@x.com"%string) 10) (mk_attendance (Some "b@x.com"%string) 5);
       mk_row (mk_lead (Some "a@x.com"%string) 10) (mk_attendance (Some "a@x.com"%string) 20)]
      (Some "a@x.com"%string) = Some r0 /\
    event_created_at (row_event r) = event_created_at (row_event r0).
Proof.
  destruct (selection_refines_grouping insertion_sort
              insertion_sort_perm insertion_sort_sorted
      [mk_row (mk_lead (Some "a@x.com"%string) 10) (mk_attendance (Some "a@x.com"%string) 30);
       mk_row (mk_lead (Some "b@x.com"%string) 10) (mk_attendance (Some "b@x.com"%string) 5);
       mk_row (mk_lead (Some "a@x.com"%string) 10) (mk_attendance (Some "a@x.com"%string) 20)]
      (Some "a@x.com"%string)) as (r & r0 & H1 & H2 & _ & _ & _ & _ & H3).
  - simpl. auto.
  - exists r, r0. auto.
Defined.

Lemma exact_join_witness :
  sample_count (aggregate exact_mean insertion_sort
     [mk_lead (Some "Ana@x.com"%string) 10]
     [mk_attendance (Some "ana@x.com"%string) 20;
      mk_attendance (Some " Ana@x.com"%string) 20;
      mk_attendance (Some "Ana@x.com "%string) 20]) = 0%nat.
Proof.
  apply (proj2 (proj2 (join_is_exact_string_equality exact_mean insertion_sort
                         insertion_sort_perm insertion_sort_sorted _ _))).
  intros l a [<-|[]] [<-|[<-|[<-|[]]]]; simpl; discriminate.
Defined.

(** The first scenario of the specification: a lead created at midnight and
    an event created two days and twelve hours later. *)
Example one_lead_two_and_a_half_days :
  present (aggregate exact_mean insertion_sort
             [mk_lead (Some "a@x.com"%string) 0]
             [mk_attendance (Some "a@x.com"%string) 216000000000000])
  = Metrics 2 12 1.
Proof.
  reflexivity.
Qed.

Lemma days_and_hours_witness :
  (0 < sample_count (Report 216000000000000
         [mk_conversion
            (mk_row (mk_lead (Some "a@x.com"%string) 0)
                    (mk_attendance (Some "a@x.com"%string) 216000000000000))
            216000000000000]))%nat /\
  present (Report 216000000000000
         [mk_conversion
            (mk_row (mk_lead (Some "a@x.com"%string) 0)
                    (mk_attendance (Some "a@x.com"%string) 216000000000000))
            216000000000000]) = Metrics 2 12 1.
Proof.
  assert (H : (0 < sample_count (Report 216000000000000
         [mk_conversion
            (mk_row (mk_lead (Some "a@x.com"%string) 0)
                    (mk_attendance (Some "a@x.com"%string) 216000000000000))
            216000000000000]))%nat).
  { unfold sample_count. simpl. lia. }
  split; [exact H|].
  destruct (mean_rendered_as_days_and_hours _ H) as (m & Hm & Hp & _).
  injection Hm as <-. rewrite Hp. reflexivity.
Defined.

(** ** The fetchers *)

Lemma append_attendees_spec creation_date attendees : forall processed_events,
  append_attendees creation_date attendees processed_events =
  processed_events ++
  map (fun attendee => mk_processed (Api.email attendee) creation_date)
      (filter qualifies attendees).
Proof.
  induction attendees as [|attendee rest IH]; intros acc; simpl.
  - now rewrite app_nil_r.
  - rewrite IH. destruct (qualifies attendee); simpl; [|reflexivity].
    now rewrite <- app_assoc.
Qed.

Lemma main_process_spec all_events : forall processed_events,
  Main.process all_events processed_events =
  processed_events ++ flat_map records_of_event all_events.
Proof.
  induction all_events as [|event rest IH]; intros acc; simpl.
  - now rewrite app_nil_r.
  - unfold records_of_event at 1.
    destruct (Api.created event) as [creation_date|]; simpl.
    + now rewrite IH, append_attendees_spec, <- app_assoc.
    + apply IH.
Qed.

Lemma dashboard_process_spec all_events : forall processed_events,
  Dashboard.process all_events processed_events =
  processed_events ++ flat_map records_of_event all_events.
Proof.
  induction all_events as [|event rest IH]; intros acc; simpl.
  - now rewrite app_nil_r.
  - unfold records_of_event at 1.
    destruct (Api.created event) as [creation_date|]; [|apply IH].
    destruct (Api.attendees event) as [[|attendee attendees]|];
      try apply IH.
    rewrite IH, append_attendees_spec, <- app_assoc. reflexivity.
Qed.

Lemma to_datetime_spec processed_events : forall df_events,
  to_datetime processed_events = Ok df_events ->
  Forall2 same_record processed_events df_events.
Proof.
  induction processed_events as [|p rest IH]; simpl; intros df H.
  - injection H as <-. constructor.
  - destruct (processed_created p) as [t|] eqn:Et; [|discriminate].
    destruct (to_datetime rest) as [df'|e]; simpl in H; [|discriminate].
    injection H as <-. constructor; [|now apply IH].
    split; [reflexivity | exact Et].
Qed.

Lemma DataFrame_spec processed_events df_events :
  DataFrame processed_events = Ok df_events ->
  Forall2 same_record processed_events df_events.
Proof.
  unfold DataFrame. destruct (is_empty processed_events); [discriminate|].
  apply to_datetime_spec.
Qed.

Lemma Forall2_in_left {A B : Type} (R : A -> B -> Prop) l1 l2 x :
  Forall2 R l1 l2 -> In x l1 -> exists y, In y l2 /\ R x y.
Proof.
  induction 1 as [|a b l1 l2 Hab _ IH]; simpl; [contradiction|].
  intros [<-|Hin].
  - exists b. auto.
  - destruct (IH Hin) as (y & Hy & Hr). exists y. auto.
Qed.

(** A run of either fetcher that returns without a diagnostic returns the
    entries of all the events, parsed. *)
Lemma main_fetch_success g df_events :
  Main.get_google_calendar_events g = Ok (df_events, None) ->
  exists all_events,
    all_events_of g = Ok all_events /\
    Forall2 same_record (flat_map records_of_event all_events) df_events.
Proof.
  unfold Main.get_google_calendar_events, Main.try_body, all_events_of.
  destruct (credentials g); simpl; [discriminate|].
  destruct (build g); simpl; [destruct e; discriminate|].
  destruct (calendarList g) as [cl|e]; simpl; [|destruct e; discriminate].
  destruct (list_events (get cl []) []) as [all_events|e]; simpl;
    [|destruct e; discriminate].
  destruct (is_empty all_events); [discriminate|].
  rewrite main_process_spec. simpl.
  destruct (DataFrame _) as [df|e] eqn:E; simpl; [|destruct e; discriminate].
  intros [= <-]. exists all_events. split; [reflexivity|].
  now apply DataFrame_spec.
Qed.

Lemma dashboard_fetch_success g df_events :
  Dashboard.get_google_calendar_events g = Ok (df_events, None) ->
  exists all_events,
    all_events_of g = Ok all_events /\
    Forall2 same_record (flat_map records_of_event all_events) df_events.
Proof.
  unfold Dashboard.get_google_calendar_events, Dashboard.try_body, all_events_of.
  destruct (credentials g); simpl; [discriminate|].
  destruct (build g); simpl; [discriminate|].
  destruct (calendarList g) as [cl|e]; simpl; [|discriminate].
  destruct (list_events (get cl []) []) as [all_events|e]; simpl; [|discriminate].
  rewrite dashboard_process_spec. simpl.
  destruct (DataFrame _) as [df|e] eqn:E; simpl; [|discriminate].
  intros [= <-]. exists all_events. split; [reflexivity|].
  now apply DataFrame_spec.
Qed.

Lemma list_events_raises before calendar after e : forall all_events,
  Forall listed before -> Api.id calendar <> None ->
  Api.events calendar = Raise e ->
  list_events (before ++ calendar :: after) all_events = Raise e.
Proof.
  induction before as [|c rest IH]; intros acc Hall Hid He; simpl.
  - destruct (Api.id calendar); [|congruence]. now rewrite He.
  - inversion Hall as [|? ? [Hc (r & Hr)] Hrest]; subst.
    destruct (Api.id c); [|congruence]. rewrite Hr. simpl.
    now apply IH.
Qed.

Lemma service_raises_try_body g e :
  service_raises g e ->
  Main.try_body g = Raise e /\ Dashboard.try_body g = Raise e.
Proof.
  unfold Main.try_body, Dashboard.try_body.
  intros [Hb | [[Hb Hc] | (Hb & cl & before & c & after & Hc & Hg & Hall & Hid & He)]];
    rewrite Hb; simpl.
  - auto.
  - rewrite Hc. auto.
  - rewrite Hc. simpl. rewrite Hg.
    rewrite (list_events_raises _ _ _ e [] Hall Hid He). auto.
Qed.

(** C2, as the code has it: an error raised while the credentials are
    loaded, refreshed or obtained is outside the [try] of both fetchers: it
    leaves both of them and ends [main] and the block of the button.  Once
    the credentials are obtained the fetcher of the dashboard never raises,
    and an error raised by the calendar service ends its fetch with an
    empty frame and a diagnostic; the fetcher of the batch run does the
    same for an [HttpError], which it never lets out, and lets an error of
    another class raised by the service out. *)
Theorem calendar_fetch_errors g :
  (forall e, credentials g = Some e ->
     Main.get_google_calendar_events g = Raise e /\
     Dashboard.get_google_calendar_events g = Raise e /\
     (forall mean sort_values df_leads,
        Main.main mean sort_values df_leads g = Raise e /\
        Dashboard.button mean sort_values df_leads g = Raise e)) /\
  (credentials g = None ->
   (exists out,
      Dashboard.get_google_calendar_events g = Ok out /\
      (snd out = None \/ exists e, out = ([], Some (CalendarError e)))) /\
   Main.get_google_calendar_events g <> Raise HttpError /\
   (forall e, service_raises g e ->
      Dashboard.get_google_calendar_events g = Ok ([], Some (CalendarError e)) /\
      (e = HttpError ->
       Main.get_google_calendar_events g = Ok ([], Some (CalendarError HttpError))) /\
      (e <> HttpError -> Main.get_google_calendar_events g = Raise e))).
Proof.
  split.
  { intros e Hc.
    unfold Main.main, Dashboard.button,
      Dashboard.get_google_calendar_events, Main.get_google_calendar_events.
    rewrite Hc. simpl. auto. }
  intros Hc.
  unfold Dashboard.get_google_calendar_events, Main.get_google_calendar_events.
  rewrite Hc. simpl. split; [|split].
  - assert (Hout : forall out, Dashboard.try_body g = Ok out -> snd out = None).
    { unfold Dashboard.try_body. intros out.
      destruct (run (build g)); simpl; [|discriminate].
      destruct (calendarList g) as [cl|]; simpl; [|discriminate].
      destruct (list_events (get cl []) []) as [all_events|]; simpl; [|discriminate].
      destruct (DataFrame _); simpl; [|discriminate].
      now intros [= <-]. }
    destruct (Dashboard.try_body g) as [out|e]; eexists; (split; [reflexivity|]).
    + left. now apply Hout.
    + right. now exists e.
  - destruct (Main.try_body g) as [out|[]]; discriminate.
  - intros e He. destruct (service_raises_try_body g e He) as [-> ->].
    split; [reflexivity|]. split.
    + intros ->. reflexivity.
    + intros Hne. destruct e; congruence.
Qed.

(** C2, as the claim words it, fails: an error raised while the credentials
    are refreshed is outside the [try] of both fetchers and ends the run of
    both surfaces. *)
Lemma credential_error_is_not_caught :
  Main.get_google_calendar_events
    (mk_google (Some (OtherError "RefreshError")) None (Ok (Some [])))
    = Raise (OtherError "RefreshError") /\
  Dashboard.get_google_calendar_events
    (mk_google (Some (OtherError "RefreshError")) None (Ok (Some [])))
    = Raise (OtherError "RefreshError") /\
  Main.main exact_mean insertion_sort [mk_lead (Some "a@x.com"%string) 10]
    (mk_google (Some (OtherError "RefreshError")) None (Ok (Some [])))
    = Raise (OtherError "RefreshError") /\
  Dashboard.button exact_mean insertion_sort [mk_lead (Some "a@x.com"%string) 10]
    (mk_google (Some (OtherError "RefreshError")) None (Ok (Some [])))
    = Raise (OtherError "RefreshError").
Proof.
  repeat split.
Qed.

Lemma service_errors_witness :
  credentials (mk_google None None (Raise HttpError)) = None /\
  Dashboard.get_google_calendar_events (mk_google None None (Raise HttpError))
    = Ok ([], Some (CalendarError HttpError)) /\
  Main.get_google_calendar_events (mk_google None None (Raise HttpError))
    = Ok ([], Some (CalendarError HttpError)).
Proof.
  split; [reflexivity|].
  destruct (proj2 (calendar_fetch_errors
                     (mk_google None None (Raise HttpError))) eq_refl)
    as (_ & _ & H).
  destruct (H HttpError) as (Hd & Hm & _).
  - right. left. split; reflexivity.
  - split; [exact Hd | exact (Hm eq_refl)].
Defined.

Lemma no_record_of_events all_events :
  Forall (fun event =>
            Api.created event = None \/
            Forall (fun attendee => qualifies attendee = false)
                   (get (Api.attendees event) [])) all_events ->
  flat_map records_of_event all_events = [].
Proof.
  induction 1 as [|event rest Hev _ IH]; simpl; [reflexivity|].
  rewrite IH, app_nil_r. unfold records_of_event.
  destruct Hev as [-> | Hq]; [reflexivity|].
  destruct (Api.created event); [|reflexivity].
  induction Hq as [|attendee attendees Ha _ IHq]; simpl; [reflexivity|].
  now rewrite Ha.
Qed.

(** C9: when the calendar service returns at least one event and no event
    gives an entry (it has no creation date, or all its attendees, if any,
    are the user or a resource), the fetcher of the batch run raises the
    [KeyError] of the missing column [event_created_at]; its handler takes
    [HttpError] only, so [main] ends with that error. *)
Theorem cli_fetch_raises_without_qualifying_attendee g all_events :
  credentials g = None -> build g = None ->
  all_events_of g = Ok all_events ->
  all_events <> [] ->
  Forall (fun event =>
            Api.created event = None \/
            Forall (fun attendee => qualifies attendee = false)
                   (get (Api.attendees event) [])) all_events ->
  Main.get_google_calendar_events g = Raise (KeyError "event_created_at") /\
  forall mean sort_values df_leads,
    Main.main mean sort_values df_leads g = Raise (KeyError "event_created_at").
Proof.
  intros Hc Hb Hev Hne Hall.
  assert (E : Main.get_google_calendar_events g = Raise (KeyError "event_created_at")).
  { unfold Main.get_google_calendar_events, Main.try_body.
    unfold all_events_of in Hev. rewrite Hc, Hb. simpl.
    destruct (calendarList g) as [cl|e]; simpl in *; [|discriminate].
    rewrite Hev. simpl.
    destruct all_events as [|event rest]; [congruence|].
    cbn [is_empty]. rewrite main_process_spec, (no_record_of_events _ Hall).
    reflexivity. }
  split; [exact E|]. intros mean sort_values df_leads. unfold Main.main. now rewrite E.
Qed.

Lemma cli_fetch_raises_witness :
  Main.get_google_calendar_events
    (mk_google None None
       (Ok (Some [Api.mk_calendar (Some "primary"%string)
                    (Ok (Some [Api.mk_event (Some (Api.Parseable 5)) None;
                               Api.mk_event None
                                 (Some [Api.mk_attendee (Some "a@x.com"%string) None None]);
                               Api.mk_event (Some (Api.Parseable 7))
                                 (Some [Api.mk_attendee (Some "me@x.com"%string) (Some true) None;
                                        Api.mk_attendee (Some "room@x.com"%string) None (Some true)])]))])))
  = Raise (KeyError "event_created_at").
Proof.
  eapply proj1. eapply cli_fetch_raises_without_qualifying_attendee.
  - reflexivity.
  - reflexivity.
  - reflexivity.
  - discriminate.
  - constructor; [right; constructor|].
    constructor; [left; reflexivity|].
    constructor; [right|constructor].
    constructor; [reflexivity|].
    constructor; [reflexivity|constructor].
Defined.

(** The fetcher of the dashboard on the same answer: the error is caught. *)
Example dashboard_fetch_catches_missing_column :
  Dashboard.get_google_calendar_events
    (mk_google None None
       (Ok (Some [Api.mk_calendar (Some "primary"%string)
                    (Ok (Some [Api.mk_event (Some (Api.Parseable 5)) None]))])))
  = Ok ([], Some (CalendarError (KeyError "event_created_at"))).
Proof.
  reflexivity.
Qed.

Lemma in_records_of_event all_events event creation_date attendee :
  In event all_events -> Api.created event = Some creation_date ->
  In attendee (get (Api.attendees event) []) -> qualifies attendee = true ->
  In (mk_processed (Api.email attendee) creation_date)
     (flat_map records_of_event all_events).
Proof.
  intros Hev Hc Ha Hq. apply in_flat_map. exists event. split; [exact Hev|].
  unfold records_of_event. rewrite Hc. apply in_map_iff.
  exists attendee. split; [reflexivity|]. apply filter_In. auto.
Qed.

Lemma to_datetime_parseable processed_events :
  Forall (fun p => processed_created p <> Api.Unparseable) processed_events ->
  exists df_events, to_datetime processed_events = Ok df_events.
Proof.
  induction 1 as [|p rest Hp _ [df IH]]; simpl.
  - now exists [].
  - destruct (processed_created p) as [t|]; [|congruence].
    rewrite IH. simpl. eexists. reflexivity.
Qed.

(** Both fetchers on an answer whose events are listed, that gives at least
    one entry and whose dates are all accepted: the same frame, without a
    diagnostic, with one row for every entry. *)
Lemma fetch_succeeds g all_events :
  credentials g = None -> build g = None ->
  all_events_of g = Ok all_events ->
  flat_map records_of_event all_events <> [] ->
  Forall (fun p => processed_created p <> Api.Unparseable)
         (flat_map records_of_event all_events) ->
  exists df_events,
    Main.get_google_calendar_events g = Ok (df_events, None) /\
    Dashboard.get_google_calendar_events g = Ok (df_events, None) /\
    Forall2 same_record (flat_map records_of_event all_events) df_events.
Proof.
  intros Hc Hb Hev Hne Hall.
  destruct (to_datetime_parseable _ Hall) as [df Hdf].
  assert (Hd : DataFrame (flat_map records_of_event all_events) = Ok df).
  { unfold DataFrame.
    destruct (flat_map records_of_event all_events); [congruence | exact Hdf]. }
  exists df.
  unfold Main.get_google_calendar_events, Dashboard.get_google_calendar_events,
    Main.try_body, Dashboard.try_body.
  unfold all_events_of in Hev. rewrite Hc, Hb. simpl.
  destruct (calendarList g) as [cl|e]; simpl in *; [|discriminate].
  rewrite Hev. simpl.
  rewrite main_process_spec, dashboard_process_spec. simpl. rewrite Hd. simpl.
  destruct all_events as [|event rest]; [simpl in Hne; congruence|].
  cbn [is_empty]. repeat split. now apply to_datetime_spec.
Qed.

(** C10, as the code has it: on an answer of the calendar service whose
    events are listed, that gives at least one entry and whose dates are
    all accepted, both fetchers return the same frame, with exactly one
    row for every attendee, neither the user nor a resource, of an event
    with a creation date; the row has the e-mail of the attendee, absent
    when the attendee has none, and the date of the event.  A row without
    e-mail is joined with the leads that have no e-mail, and with no
    other lead. *)
Theorem attendee_without_email_is_emitted g all_events :
  credentials g = None -> build g = None ->
  all_events_of g = Ok all_events ->
  flat_map records_of_event all_events <> [] ->
  Forall (fun p => processed_created p <> Api.Unparseable)
         (flat_map records_of_event all_events) ->
  exists df_events,
    Main.get_google_calendar_events g = Ok (df_events, None) /\
    Dashboard.get_google_calendar_events g = Ok (df_events, None) /\
    Main.process all_events [] = flat_map records_of_event all_events /\
    Dashboard.process all_events [] = flat_map records_of_event all_events /\
    Forall2 same_record (flat_map records_of_event all_events) df_events /\
    (forall event t attendee,
       In event all_events -> Api.created event = Some (Api.Parseable t) ->
       In attendee (get (Api.attendees event) []) ->
       qualifies attendee = true ->
       In (mk_attendance (Api.email attendee) t) df_events) /\
    (forall a, In a df_events -> attendee_email a = None ->
       (forall l, key_match l a = true <-> email l = None) /\
       (forall df_leads l,
          In (mk_row l a) (merge df_leads df_events) <->
          In l df_leads /\ email l = None)).
Proof.
  intros Hc Hb Hev Hne Hall.
  destruct (fetch_succeeds g all_events Hc Hb Hev Hne Hall)
    as (df_events & Hm & Hd & Hsame).
  exists df_events. split; [exact Hm|]. split; [exact Hd|].
  split; [apply (main_process_spec all_events [])|].
  split; [apply (dashboard_process_spec all_events [])|].
  split; [exact Hsame|]. split.
  - intros event t attendee Hin Hcr Ha Hq.
    pose proof (in_records_of_event _ _ _ _ Hin Hcr Ha Hq) as Hp.
    destruct (Forall2_in_left _ _ _ _ Hsame Hp) as (y & Hy & He & Ht).
    simpl in He, Ht. injection Ht as Ht. destruct y as [ye yt].
    simpl in He, Ht. now subst.
  - intros a Ha Hnone. split.
    + intros l. rewrite key_match_spec, Hnone. split; congruence.
    + intros df_leads l. rewrite in_merge. simpl. rewrite Hnone.
      split; [intros (Hl & _ & Hk) | intros (Hl & Hk)]; auto.
Qed.

(** C10, as the claim words it, fails: a lead that the store sends with a
    null e-mail is joined with the row of an attendee without e-mail, and
    both surfaces count it as a converted lead. *)
Lemma null_emails_are_joined :
  Main.get_supabase_leads
    (mk_supabase None (Ok [mk_lead_data None (Api.Parseable 10)]))
  = Ok ([mk_lead None 10], None) /\
  Main.get_google_calendar_events
    (mk_google None None
       (Ok (Some [Api.mk_calendar (Some "primary"%string)
                    (Ok (Some [Api.mk_event (Some (Api.Parseable 20))
                                 (Some [Api.mk_attendee None None None])]))])))
  = Ok ([mk_attendance None 20], None) /\
  merge [mk_lead None 10] [mk_attendance None 20]
  = [mk_row (mk_lead None 10) (mk_attendance None 20)] /\
  ~ (forall r, In r (merge [mk_lead None 10] [mk_attendance None 20]) ->
               row_event r <> mk_attendance None 20) /\
  sample_count (aggregate exact_mean insertion_sort
                  [mk_lead None 10] [mk_attendance None 20]) = 1%nat.
Proof.
  repeat split. intros H.
  apply (H (mk_row (mk_lead None 10) (mk_attendance None 20))).
  - now left.
  - reflexivity.
Qed.

Lemma attendee_without_email_witness :
  Dashboard.get_google_calendar_events
    (mk_google None None
       (Ok (Some [Api.mk_calendar (Some "primary"%string)
                    (Ok (Some [Api.mk_event (Some (Api.Parseable 5))
                                 (Some [Api.mk_attendee None None None;
                                        Api.mk_attendee (Some "me@x.com"%string) (Some true) None;
                                        Api.mk_attendee (Some "a@x.com"%string) None (Some false)])]))])))
  = Ok ([mk_attendance None 5; mk_attendance (Some "a@x.com"%string) 5], None) /\
  Main.get_google_calendar_events
    (mk_google None None
       (Ok (Some [Api.mk_calendar (Some "primary"%string)
                    (Ok (Some [Api.mk_event (Some (Api.Parseable 5))
                                 (Some [Api.mk_attendee None None None;
                                        Api.mk_attendee (Some "me@x.com"%string) (Some true) None;
                                        Api.mk_attendee (Some "a@x.com"%string) None (Some false)])]))])))
  = Ok ([mk_attendance None 5; mk_attendance (Some "a@x.com"%string) 5], None).
Proof.
  destruct (attendee_without_email_is_emitted
    (mk_google None None
       (Ok (Some [Api.mk_calendar (Some "primary"%string)
                    (Ok (Some [Api.mk_event (Some (Api.Parseable 5))
                                 (Some [Api.mk_attendee None None None;
                                        Api.mk_attendee (Some "me@x.com"%string) (Some true) None;
                                        Api.mk_attendee (Some "a@x.com"%string) None (Some false)])]))])))
    [Api.mk_event (Some (Api.Parseable 5))
       (Some [Api.mk_attendee None None None;
              Api.mk_attendee (Some "me@x.com"%string) (Some true) None;
              Api.mk_attendee (Some "a@x.com"%string) None (Some false)])]
    eq_refl eq_refl eq_refl)
    as (df_events & Hm & Hd & _).
  - discriminate.
  - repeat (constructor; [discriminate|]). constructor.
  - assert (E : df_events
                = [mk_attendance None 5; mk_attendance (Some "a@x.com"%string) 5]).
    { assert (Hr : Main.get_google_calendar_events
        (mk_google None None
           (Ok (Some [Api.mk_calendar (Some "primary"%string)
                        (Ok (Some [Api.mk_event (Some (Api.Parseable 5))
                                     (Some [Api.mk_attendee None None None;
                                            Api.mk_attendee (Some "me@x.com"%string) (Some true) None;
                                            Api.mk_attendee (Some "a@x.com"%string) None (Some false)])]))])))
        = Ok ([mk_attendance None 5; mk_attendance (Some "a@x.com"%string) 5], None))
        by reflexivity.
      rewrite Hr in Hm. now injection Hm as <-. }
    rewrite E in Hd, Hm. split; [exact Hd | exact Hm].
Defined.

(** * More of the business logic *)

Lemma drop_duplicates_nil df : drop_duplicates df = [] -> df = [].
Proof.
  destruct df as [|r rest]; [reflexivity | discriminate].
Qed.

Lemma in_drop_duplicates_from r df : forall seen,
  In r (drop_duplicates_from seen df) ->
  In r df /\ ~ In (email (row_lead r)) seen.
Proof.
  induction df as [|x rest IH]; intros seen; simpl; [contradiction|].
  destruct (existsb (key_eqb (email (row_lead x))) seen) eqn:E.
  - intros H. destruct (IH _ H). auto.
  - intros [<-|H].
    + split; [now left|]. intros Hin.
      assert (Ht : existsb (key_eqb (email (row_lead x))) seen = true).
      { apply existsb_exists. exists (email (row_lead x)).
        split; [exact Hin | apply key_eqb_refl]. }
      congruence.
    + destruct (IH _ H) as [H1 H2]. split; [now right|].
      intros Hin. apply H2. now right.
Qed.

Lemma drop_duplicates_from_NoDup df : forall seen,
  NoDup (map (fun r => email (row_lead r)) (drop_duplicates_from seen df)).
Proof.
  induction df as [|x rest IH]; intros seen; simpl; [constructor|].
  destruct (existsb (key_eqb (email (row_lead x))) seen); [apply IH|].
  simpl. constructor; [|apply IH].
  intros Hin. apply in_map_iff in Hin as (r & He & Hr).
  apply in_drop_duplicates_from in Hr as [_ Hr]. apply Hr. left. now symmetry.
Qed.

Lemma drop_duplicates_from_sorted df : forall seen,
  StronglySorted event_le df ->
  StronglySorted event_le (drop_duplicates_from seen df).
Proof.
  induction df as [|x rest IH]; intros seen Hs; simpl; [constructor|].
  inversion Hs as [|? ? Hrest Hall]; subst.
  destruct (existsb (key_eqb (email (row_lead x))) seen); [now apply IH|].
  constructor; [now apply IH|].
  rewrite Forall_forall in *. intros r Hr.
  apply Hall. now apply in_drop_duplicates_from in Hr.
Qed.

Lemma StronglySorted_filter {A : Type} (R : A -> A -> Prop) (f : A -> bool) l :
  StronglySorted R l -> StronglySorted R (filter f l).
Proof.
  induction 1 as [|x l Hs IH Hall]; simpl; [constructor|].
  destruct (f x); [|exact IH]. constructor; [exact IH|].
  rewrite Forall_forall in *. intros y Hy.
  apply Hall. now apply filter_In in Hy.
Qed.

Lemma NoDup_filter_map {A B : Type} (g : A -> B) (f : A -> bool) l :
  NoDup (map g l) -> NoDup (map g (filter f l)).
Proof.
  induction l as [|x l IH]; simpl; [auto|].
  intros H. inversion H as [|? ? Hx Hl]; subst.
  destruct (f x); [|now apply IH].
  simpl. constructor; [|now apply IH].
  intros Hin. apply Hx. apply in_map_iff in Hin as (y & Hy & Hyin).
  apply in_map_iff. exists y. split; [exact Hy|]. now apply filter_In in Hyin.
Qed.

Lemma NoDup_map_by {A B C : Type} (f : A -> B) (g : A -> C) l :
  NoDup (map g l) ->
  (forall x y, In x l -> In y l -> f x = f y -> g x = g y) ->
  NoDup (map f l).
Proof.
  induction l as [|x l IH]; simpl; intros Hnd Hfg; [constructor|].
  inversion Hnd as [|? ? Hx Hl]; subst. constructor.
  - intros Hin. apply Hx. apply in_map_iff in Hin as (y & Hy & Hyin).
    apply in_map_iff. exists y. split; [|exact Hyin].
    symmetry. apply Hfg; auto.
  - apply IH; [exact Hl|]. intros a b Ha Hb. apply Hfg; auto.
Qed.

Lemma NoDup_map_injective_on {A B : Type} (f : A -> B) l x y :
  NoDup (map f l) -> In x l -> In y l -> f x = f y -> x = y.
Proof.
  induction l as [|z l IH]; simpl; [contradiction|].
  intros Hnd [<-|Hx] [<-|Hy] E; auto; inversion Hnd as [|? ? Hz Hl]; subst.
  - exfalso. apply Hz. rewrite E. now apply in_map.
  - exfalso. apply Hz. rewrite <- E. now apply in_map.
  - now apply IH.
Qed.

Section AggregateMore.

Variable mean : list Z -> Z.

Variable sort_values : list merged_row -> list merged_row.
Hypothesis sort_values_perm : forall df, Permutation (sort_values df) df.
Hypothesis sort_values_sorted : forall df, Sorted event_le (sort_values df).

Lemma merge_empty_iff df_leads df_events :
  drop_duplicates (sort_values (merge df_leads df_events)) = [] <->
  forall l a, In l df_leads -> In a df_events ->
              attendee_email a <> email l.
Proof.
  split.
  - intros H l a Hl Ha Hk. apply drop_duplicates_nil in H.
    assert (Hin : In (mk_row l a) (sort_values (merge df_leads df_events))).
    { apply (in_sort_values _ sort_values_perm), in_merge. simpl. auto. }
    now rewrite H in Hin.
  - intros Hno.
    destruct (sort_values (merge df_leads df_events)) as [|r rest] eqn:E;
      [reflexivity|].
    exfalso.
    assert (Hin : In r (sort_values (merge df_leads df_events))).
    { rewrite E. now left. }
    apply (in_sort_values _ sort_values_perm), in_merge in Hin.
    destruct Hin as (Hl & Ha & Hk). exact (Hno _ _ Hl Ha Hk).
Qed.

Lemma report_inv df_leads df_events m df :
  aggregate mean sort_values df_leads df_events = Report m df ->
  df = records (aggregate mean sort_values df_leads df_events) /\
  df <> [] /\ m = mean (map speed df).
Proof.
  intros H. rewrite H. simpl. split; [reflexivity|].
  unfold aggregate in H.
  destruct (is_empty df_leads || is_empty df_events); [discriminate|].
  destruct (is_empty (drop_duplicates _)); [discriminate|].
  destruct (is_empty (filter _ _)) eqn:E; [discriminate|].
  injection H as <- <-. split; [|reflexivity].
  intros Hnil. rewrite Hnil in E. discriminate.
Qed.

Lemma record_facts df_leads df_events c :
  In c (records (aggregate mean sort_values df_leads df_events)) ->
  c = add_speed (row c) /\ 0 <= duration c /\
  find (has_email (email (row_lead (row c))))
       (sort_values (merge df_leads df_events)) = Some (row c).
Proof.
  intros Hc. rewrite (records_aggregate _ _ sort_values_perm) in Hc.
  apply filter_In in Hc as [Hc Hv]. apply in_candidates in Hc as [Hadd Hf].
  unfold valid_speed in Hv. rewrite Hadd in Hv. apply Z.leb_le in Hv. auto.
Qed.

Lemma insufficient_data_iff df_leads df_events :
  aggregate mean sort_values df_leads df_events = InsufficientData <->
  df_leads = [] \/ df_events = [].
Proof.
  unfold aggregate. destruct df_leads as [|l ls], df_events as [|a es];
    cbn [is_empty orb]; try (split; [auto | reflexivity]).
  destruct (is_empty (drop_duplicates _)).
  - split; [discriminate | intros [H|H]; discriminate].
  - destruct (is_empty (filter valid_speed _));
      (split; [discriminate | intros [H|H]; discriminate]).
Qed.

Lemma no_lead_with_call_iff df_leads df_events :
  aggregate mean sort_values df_leads df_events = NoLeadWithCall <->
  df_leads <> [] /\ df_events <> [] /\
  forall l a, In l df_leads -> In a df_events ->
              attendee_email a <> email l.
Proof.
  pose proof (merge_empty_iff df_leads df_events) as Hm.
  unfold aggregate. destruct df_leads as [|l ls].
  { simpl. split; [discriminate | intros [H _]; congruence]. }
  destruct df_events as [|a es].
  { simpl. split; [discriminate | intros (_ & H & _); congruence]. }
  cbn [is_empty orb].
  destruct (drop_duplicates _) as [|r rs] eqn:E.
  - simpl. split; [|reflexivity]. intros _.
    split; [discriminate|]. split; [discriminate|]. now apply Hm.
  - cbn [is_empty]. split.
    + destruct (is_empty (filter _ _)); discriminate.
    + intros (_ & _ & Hno). apply Hm in Hno. discriminate.
Qed.


(** The records of a result are in ascending order of the date of the
    event: every record has an event no later than the events of the
    records after it. *)
Theorem records_sorted_by_event df_leads df_events :
  StronglySorted earlier_event
    (records (aggregate mean sort_values df_leads df_events)).
Proof.
  rewrite (records_aggregate _ _ sort_values_perm). unfold candidates.
  apply StronglySorted_filter.
  pose proof (drop_duplicates_from_sorted _ []
    (sort_values_strongly_sorted _ sort_values_sorted
       (merge df_leads df_events))) as Hs.
  fold (drop_duplicates (sort_values (merge df_leads df_events))) in Hs.
  induction Hs as [|r rs _ IH Hall]; simpl; constructor; [exact IH|].
  rewrite Forall_forall in *. intros c Hc.
  apply in_map_iff in Hc as (r' & <- & Hr'). exact (Hall _ Hr').
Qed.

Lemma records_NoDup_email df_leads df_events :
  NoDup (map (fun c => email (row_lead (row c)))
             (records (aggregate mean sort_values df_leads df_events))).
Proof.
  rewrite (records_aggregate _ _ sort_values_perm). unfold candidates.
  apply NoDup_filter_map. rewrite map_map. simpl.
  apply drop_duplicates_from_NoDup.
Qed.

(** A result has at most one record for an e-mail, so it has no more
    records than there are leads and no more than there are rows of
    events. *)
Theorem sample_count_bounds df_leads df_events :
  NoDup (map (fun c => email (row_lead (row c)))
             (records (aggregate mean sort_values df_leads df_events))) /\
  (sample_count (aggregate mean sort_values df_leads df_events)
   <= List.length df_leads)%nat /\
  (sample_count (aggregate mean sort_values df_leads df_events)
   <= List.length df_events)%nat.
Proof.
  pose proof (records_NoDup_email df_leads df_events) as Hnd.
  assert (Hfacts : forall c,
    In c (records (aggregate mean sort_values df_leads df_events)) ->
    In (row_lead (row c)) df_leads /\ In (row_event (row c)) df_events /\
    attendee_email (row_event (row c)) = email (row_lead (row c))).
  { intros c Hc. destruct (record_facts _ _ _ Hc) as (_ & _ & Hf).
    destruct (first_row_earliest _ sort_values_perm sort_values_sorted
                _ _ _ _ Hf) as (_ & Hl & Ha & Hk & _). auto. }
  split; [exact Hnd|]. unfold sample_count. split.
  - rewrite <- (length_map (fun c => email (row_lead (row c)))),
            <- (length_map email df_leads).
    apply NoDup_incl_length; [exact Hnd|].
    intros e He. apply in_map_iff in He as (c & <- & Hc).
    apply in_map. now apply Hfacts.
  - rewrite <- (length_map (fun c => row_event (row c))).
    apply NoDup_incl_length.
    + apply (NoDup_map_by _ _ _ Hnd). intros x y Hx Hy E.
      destruct (Hfacts x Hx) as (_ & _ & Kx).
      destruct (Hfacts y Hy) as (_ & _ & Ky).
      rewrite E in Kx. congruence.
    + intros a Ha. apply in_map_iff in Ha as (c & <- & Hc). now apply Hfacts.
Qed.

End AggregateMore.

(** ** The order of the rows and the ties of the sort *)

Lemma attendance_eq a b :
  attendee_email a = attendee_email b ->
  event_created_at a = event_created_at b -> a = b.
Proof.
  destruct a, b. simpl. now intros -> ->.
Qed.

Lemma in_records_iff mean sort_values df_leads df_events c :
  (forall df, Permutation (sort_values df) df) ->
  (forall df, Sorted event_le (sort_values df)) ->
  NoDup (map email df_leads) ->
  In c (records (aggregate mean sort_values df_leads df_events)) <->
  earliest_valid_match df_leads df_events c.
Proof.
  intros Hperm Hsorted Hnd. unfold earliest_valid_match. split.
  - intros Hc. destruct (record_facts _ _ Hperm _ _ _ Hc) as (Hadd & Hd & Hf).
    destruct (first_row_earliest _ Hperm Hsorted _ _ _ _ Hf)
      as (_ & Hl & Ha & Hk & Hmin).
    auto 10.
  - intros (Hadd & Hl & Ha & Hk & Hmin & Hd).
    destruct (first_row_exists _ Hperm _ _ _ _ Hl Ha Hk) as [r Hf].
    destruct (first_row_earliest _ Hperm Hsorted _ _ _ _ Hf)
      as (He & Hl' & Ha' & Hk' & Hmin').
    assert (Hlead : row_lead r = row_lead (row c)).
    { apply (NoDup_map_injective_on email df_leads); assumption. }
    assert (Hevent : row_event r = row_event (row c)).
    { apply attendance_eq; [congruence|].
      pose proof (Hmin _ Ha' Hk'). pose proof (Hmin' _ Ha Hk). lia. }
    assert (Hr : r = row c).
    { destruct r, (row c). simpl in *. congruence. }
    rewrite (records_aggregate _ _ Hperm). apply filter_In. split.
    + apply in_candidates. split; [exact Hadd|]. now rewrite <- Hr at 2.
    + unfold valid_speed. rewrite Hadd. apply Z.leb_le. exact Hd.
Qed.

Lemma earliest_valid_match_perm df_leads df_leads' df_events df_events' c :
  Permutation df_leads df_leads' -> Permutation df_events df_events' ->
  earliest_valid_match df_leads df_events c ->
  earliest_valid_match df_leads' df_events' c.
Proof.
  intros Pl Pe (Hadd & Hl & Ha & Hk & Hmin & Hd).
  unfold earliest_valid_match. repeat split; try assumption.
  - now apply (Permutation_in _ Pl).
  - now apply (Permutation_in _ Pe).
  - intros a Ha'. apply Hmin.
    now apply (Permutation_in _ (Permutation_sym Pe)).
Qed.

Section OrderIndependence.

Variable mean : list Z -> Z.

Variables sort1 sort2 : list merged_row -> list merged_row.
Hypothesis sort1_perm : forall df, Permutation (sort1 df) df.
Hypothesis sort1_sorted : forall df, Sorted event_le (sort1 df).
Hypothesis sort2_perm : forall df, Permutation (sort2 df) df.
Hypothesis sort2_sorted : forall df, Sorted event_le (sort2 df).

(** When no two leads have the same e-mail the result does not depend on
    the order in which the leads and the events arrive, nor on how the
    sort orders rows of equal date: the records are the same up to their
    order, the count and the notice are the same, and when there is a
    result the two means are taken of the same durations, in an order that
    may differ. *)
Theorem result_independent_of_order df_leads df_leads' df_events df_events' :
  NoDup (map email df_leads) ->
  Permutation df_leads df_leads' -> Permutation df_events df_events' ->
  Permutation (records (aggregate mean sort1 df_leads df_events))
              (records (aggregate mean sort2 df_leads' df_events')) /\
  sample_count (aggregate mean sort1 df_leads df_events) =
  sample_count (aggregate mean sort2 df_leads' df_events') /\
  (aggregate mean sort1 df_leads df_events = InsufficientData <->
   aggregate mean sort2 df_leads' df_events' = InsufficientData) /\
  (aggregate mean sort1 df_leads df_events = NoLeadWithCall <->
   aggregate mean sort2 df_leads' df_events' = NoLeadWithCall) /\
  (aggregate mean sort1 df_leads df_events = NoValidConversion <->
   aggregate mean sort2 df_leads' df_events' = NoValidConversion) /\
  (forall m1 d1,
     aggregate mean sort1 df_leads df_events = Report m1 d1 ->
     exists m2 d2,
       aggregate mean sort2 df_leads' df_events' = Report m2 d2 /\
       m1 = mean (map duration d1) /\ m2 = mean (map duration d2) /\
       Permutation (map duration d1) (map duration d2)).
Proof.
  intros Hnd Pl Pe.
  assert (Hnd' : NoDup (map email df_leads')).
  { apply (Permutation_NoDup (Permutation_map email Pl) Hnd). }
  assert (Hrec : Permutation (records (aggregate mean sort1 df_leads df_events))
                             (records (aggregate mean sort2 df_leads' df_events'))).
  { apply NoDup_Permutation.
    - apply (NoDup_map_inv (fun c => email (row_lead (row c)))).
      apply records_NoDup_email, sort1_perm.
    - apply (NoDup_map_inv (fun c => email (row_lead (row c)))).
      apply records_NoDup_email, sort2_perm.
    - intros c. rewrite !in_records_iff by assumption. split.
      + now apply earliest_valid_match_perm.
      + apply earliest_valid_match_perm; now apply Permutation_sym. }
  assert (Hnil : forall (A : Type) (l l' : list A),
            Permutation l l' -> (l = [] <-> l' = [])).
  { intros A l l' P. split; intros ->.
    - now apply Permutation_nil.
    - now apply Permutation_nil, Permutation_sym. }
  assert (Hins : aggregate mean sort1 df_leads df_events = InsufficientData <->
                 aggregate mean sort2 df_leads' df_events' = InsufficientData).
  { pose proof (insufficient_data_iff mean sort1 df_leads df_events) as H1.
    pose proof (insufficient_data_iff mean sort2 df_leads' df_events') as H2.
    rewrite H1, H2, (Hnil _ _ _ Pl), (Hnil _ _ _ Pe). tauto. }
  assert (Hno : aggregate mean sort1 df_leads df_events = NoLeadWithCall <->
                aggregate mean sort2 df_leads' df_events' = NoLeadWithCall).
  { pose proof (no_lead_with_call_iff mean sort1 sort1_perm
                  df_leads df_events) as H1.
    pose proof (no_lead_with_call_iff mean sort2 sort2_perm
                  df_leads' df_events') as H2.
    rewrite H1, H2, (Hnil _ _ _ Pl), (Hnil _ _ _ Pe).
    split; intros (A & B & C); (split; [exact A|]; split; [exact B|]);
      intros l a Hl Ha; apply C.
    + now apply (Permutation_in _ (Permutation_sym Pl)).
    + now apply (Permutation_in _ (Permutation_sym Pe)).
    + now apply (Permutation_in _ Pl).
    + now apply (Permutation_in _ Pe). }
  assert (Hdur : forall sort_values leads events m df,
            (forall l, Permutation (sort_values l) l) ->
            aggregate mean sort_values leads events = Report m df ->
            map speed df = map duration df).
  { intros sv leads events m df Hp H.
    destruct (report_inv _ _ _ _ _ _ H) as (Hdf & _).
    apply map_ext_in. intros c Hc. rewrite Hdf in Hc.
    destruct (record_facts _ _ Hp _ _ _ Hc) as (Hadd & _). now rewrite Hadd. }
  split; [exact Hrec|]. split; [|split; [exact Hins|split; [exact Hno|]]].
  { unfold sample_count. now apply Permutation_length. }
  destruct (aggregate mean sort1 df_leads df_events) as [| | |m1 d1] eqn:E1;
    destruct (aggregate mean sort2 df_leads' df_events') as [| | |m2 d2] eqn:E2;
    simpl in Hrec;
    try (split; [tauto | discriminate]);
    try (exfalso; destruct Hins as [Hi1 Hi2];
         first [discriminate (Hi1 eq_refl) | discriminate (Hi2 eq_refl)]);
    try (exfalso; destruct Hno as [Hn1 Hn2];
         first [discriminate (Hn1 eq_refl) | discriminate (Hn2 eq_refl)]).
  - exfalso. apply report_inv in E2 as (_ & Hne & _).
    now apply Permutation_nil in Hrec.
  - exfalso. apply report_inv in E1 as (_ & Hne & _).
    now apply Permutation_sym, Permutation_nil in Hrec.
  - split; [split; discriminate|].
    intros m d [= <- <-]. exists m2, d2. split; [reflexivity|].
    pose proof (Hdur _ _ _ _ _ sort1_perm E1) as D1.
    pose proof (Hdur _ _ _ _ _ sort2_perm E2) as D2.
    apply report_inv in E1 as (_ & _ & ->).
    apply report_inv in E2 as (_ & _ & ->).
    rewrite D1, D2. split; [reflexivity|]. split; [reflexivity|].
    now apply Permutation_map.
Qed.

End OrderIndependence.

(** * More of the presenters *)

Lemma minutes_integer m :
  snd (cli_metric m) = (m mod 3600000000000) / 60000000000.
Proof.
  unfold cli_metric. cbv zeta. cbn [snd]. unfold floordiv at 1.
  rewrite int_inject_Z. unfold modulo, floordiv, total_seconds.
  rewrite floor_ratio by lia.
  change (1000000000 * 3600) with 3600000000000.
  rewrite Z.mod_eq by lia.
  change 60000000000 with (1000000000 * 60).
  rewrite <- floor_ratio by lia. apply Qfloor_comp.
  unfold Z.sub. rewrite inject_Z_plus, inject_Z_opp, inject_Z_mult.
  change (inject_Z 3600000000000) with (inject_Z 3600 * inject_Z 1000000000)%Q.
  field.
Qed.

(** The line printed by the batch run: the days, hours and minutes are the
    parts of the mean, with hours below 24 and minutes below 60, and
    together they fall short of the mean by less than one minute. *)
Theorem cli_metric_decomposition m days hours minutes :
  cli_metric m = (days, hours, minutes) ->
  0 <= hours < 24 /\ 0 <= minutes < 60 /\
  (0 <= m -> 0 <= days) /\
  let shown := days * 86400000000000 + hours * 3600000000000
               + minutes * 60000000000 in
  shown <= m < shown + 60000000000.
Proof.
  intros H.
  pose proof (days_integer m) as Hd. pose proof (hours_integer m) as Hh.
  pose proof (minutes_integer m) as Hm.
  rewrite <- cli_metric_floor in Hd, Hh. rewrite H in Hd, Hh, Hm.
  cbn [fst snd] in Hd, Hh, Hm. cbv zeta.
  assert (Hdiv : m mod 3600000000000 = (m mod 86400000000000) mod 3600000000000).
  { symmetry. apply Z.mod_mod_divide. exists 24. reflexivity. }
  pose proof (Z.div_mod m 86400000000000 ltac:(lia)) as E1.
  pose proof (Z.mod_pos_bound m 86400000000000 ltac:(lia)) as B1.
  pose proof (Z.div_mod (m mod 86400000000000) 3600000000000 ltac:(lia)) as E2.
  pose proof (Z.mod_pos_bound (m mod 86400000000000) 3600000000000 ltac:(lia)) as B2.
  pose proof (Z.div_mod (m mod 3600000000000) 60000000000 ltac:(lia)) as E3.
  pose proof (Z.mod_pos_bound (m mod 3600000000000) 60000000000 ltac:(lia)) as B3.
  rewrite <- Hdiv in E2, B2. rewrite <- Hd, <- Hh in *. rewrite <- Hm in *.
  repeat split; try lia.
Qed.

Lemma cli_metric_witness :
  cli_metric 221400000000000 = (2, 13, 30) /\
  2 * 86400000000000 + 13 * 3600000000000 + 30 * 60000000000
    <= 221400000000000.
Proof.
  split; [reflexivity|].
  exact (proj1 (proj2 (proj2 (proj2
    (cli_metric_decomposition 221400000000000 2 13 30 eq_refl))))).
Defined.

Lemma conversion_time_metric x :
  Dashboard.conversion_time x = dashboard_metric x.
Proof.
  rewrite (surjective_pairing (dashboard_metric x)).
  rewrite days_integer, hours_integer.
  unfold Dashboard.conversion_time, timedelta_days, timedelta_seconds.
  f_equal. rewrite Z.div_div by lia. reflexivity.
Qed.

Section DetailTable.

Variable mean : list Z -> Z.

Variable sort_values : list merged_row -> list merged_row.
Hypothesis sort_values_perm : forall df, Permutation (sort_values df) df.

(** The table of details has one row for every record, in the same order;
    the conversion time of a row, made from the components [days] and
    [seconds] of the duration, is what the formula of the mean gives for
    that duration: whole days that are not negative and hours below 24. *)
Theorem display_df_rows df_leads df_events :
  List.length (Dashboard.display_df
                 (records (aggregate mean sort_values df_leads df_events)))
  = sample_count (aggregate mean sort_values df_leads df_events) /\
  Forall2 (fun c shown =>
             let '(e, lead_date, event_date, (days, hours)) := shown in
             e = email (row_lead (row c)) /\
             lead_date = created_at (row_lead (row c)) /\
             event_date = event_created_at (row_event (row c)) /\
             (days, hours) = dashboard_metric (event_date - lead_date) /\
             0 <= days /\ 0 <= hours < 24 /\
             days * 86400000000000 + hours * 3600000000000
               <= event_date - lead_date
               < days * 86400000000000 + hours * 3600000000000 + 3600000000000)
          (records (aggregate mean sort_values df_leads df_events))
          (Dashboard.display_df
             (records (aggregate mean sort_values df_leads df_events))).
Proof.
  split; [apply length_map|].
  assert (Hall : forall c,
    In c (records (aggregate mean sort_values df_leads df_events)) ->
    speed c = duration c /\ 0 <= duration c).
  { intros c Hc. destruct (record_facts _ _ sort_values_perm _ _ _ Hc)
      as (Hadd & Hd & _). split; [now rewrite Hadd | exact Hd]. }
  induction (records (aggregate mean sort_values df_leads df_events)) as [|c cs IH];
    simpl; constructor.
  - destruct (Hall c (or_introl eq_refl)) as [Hs Hd].
    rewrite Hs. unfold duration in *.
    set (d := event_created_at (row_event (row c)) - created_at (row_lead (row c))) in *.
    unfold Dashboard.conversion_time, timedelta_days, timedelta_seconds.
    repeat split.
    + rewrite (surjective_pairing (dashboard_metric d)).
      rewrite days_integer, hours_integer, Z.div_div by lia. reflexivity.
    + apply Z.div_pos; lia.
    + apply Z.div_pos; [|lia]. apply Z.div_pos; [|lia].
      apply Z.mod_pos_bound. lia.
    + rewrite Z.div_div by lia. apply Z.div_lt_upper_bound; [lia|].
      pose proof (Z.mod_pos_bound d 86400000000000 ltac:(lia)). lia.
    + rewrite Z.div_div by lia.
      pose proof (Z.div_mod d 86400000000000 ltac:(lia)).
      pose proof (Z.div_mod (d mod 86400000000000) (1000000000 * 3600) ltac:(lia)).
      pose proof (Z.mod_pos_bound (d mod 86400000000000) (1000000000 * 3600) ltac:(lia)).
      lia.
    + rewrite Z.div_div by lia.
      pose proof (Z.div_mod d 86400000000000 ltac:(lia)).
      pose proof (Z.div_mod (d mod 86400000000000) (1000000000 * 3600) ltac:(lia)).
      pose proof (Z.mod_pos_bound (d mod 86400000000000) (1000000000 * 3600) ltac:(lia)).
      lia.
  - apply IH. intros c' Hc'. apply Hall. now right.
Qed.

End DetailTable.

Lemma display_df_witness :
  Dashboard.display_df
    (records (aggregate exact_mean insertion_sort
       [mk_lead (Some "a@x.com"%string) 0]
       [mk_attendance (Some "a@x.com"%string) 216000000000000]))
  = [(Some "a@x.com"%string, 0, 216000000000000, (2, 12))] /\
  List.length (Dashboard.display_df
    (records (aggregate exact_mean insertion_sort
       [mk_lead (Some "a@x.com"%string) 0]
       [mk_attendance (Some "a@x.com"%string) 216000000000000])))
  = sample_count (aggregate exact_mean insertion_sort
       [mk_lead (Some "a@x.com"%string) 0]
       [mk_attendance (Some "a@x.com"%string) 216000000000000]).
Proof.
  split; [reflexivity|].
  exact (proj1 (display_df_rows exact_mean insertion_sort insertion_sort_perm
                  [mk_lead (Some "a@x.com"%string) 0]
                  [mk_attendance (Some "a@x.com"%string) 216000000000000])).
Defined.

(** * More of the event fetchers *)

Lemma list_events_listed calendars : forall all_events,
  Forall listed calendars ->
  list_events calendars all_events =
  Ok (all_events ++ flat_map calendar_items calendars).
Proof.
  induction calendars as [|c rest IH]; intros acc Hall; simpl.
  - now rewrite app_nil_r.
  - inversion Hall as [|? ? [Hid (r & Hr)] Hrest]; subst.
    destruct (Api.id c); [|congruence].
    unfold calendar_items at 1. rewrite Hr. simpl.
    rewrite IH by assumption. now rewrite <- app_assoc.
Qed.

Lemma list_events_no_id before calendar after : forall all_events,
  Forall listed before -> Api.id calendar = None ->
  list_events (before ++ calendar :: after) all_events = Raise (KeyError "id").
Proof.
  induction before as [|c rest IH]; intros acc Hall Hid; simpl.
  - now rewrite Hid.
  - inversion Hall as [|? ? [Hc (r & Hr)] Hrest]; subst.
    destruct (Api.id c); [|congruence]. rewrite Hr. simpl.
    now apply IH.
Qed.

Lemma to_datetime_unparseable processed_events p :
  In p processed_events -> processed_created p = Api.Unparseable ->
  to_datetime processed_events = Raise ValueError.
Proof.
  induction processed_events as [|q rest IH]; simpl; [contradiction|].
  intros [->|Hin] Hp.
  - now rewrite Hp.
  - destruct (processed_created q); [|reflexivity].
    now rewrite (IH Hin Hp).
Qed.

Lemma Forall2_in_right {A B : Type} (R : A -> B -> Prop) l1 l2 y :
  Forall2 R l1 l2 -> In y l2 -> exists x, In x l1 /\ R x y.
Proof.
  induction 1 as [|a b l1 l2 Hab _ IH]; simpl; [contradiction|].
  intros [<-|Hin].
  - exists a. auto.
  - destruct (IH Hin) as (x & Hx & Hr). exists x. auto.
Qed.

(** The two bodies compared: the same frame when the batch run gets one,
    the same error when it raises, and the error of the missing column
    when the batch run finds no event. *)
Lemma try_body_compared g :
  match Main.try_body g with
  | Ok (df_events, None) => Dashboard.try_body g = Ok (df_events, None)
  | Ok (df_events, Some d) =>
      df_events = [] /\ d = NoEventFound /\
      all_events_of g = Ok [] /\
      Dashboard.try_body g = Raise (KeyError "event_created_at")
  | Raise e => Dashboard.try_body g = Raise e
  end.
Proof.
  unfold Main.try_body, Dashboard.try_body, all_events_of.
  destruct (build g); simpl; [reflexivity|].
  destruct (calendarList g) as [cl|e]; simpl; [|reflexivity].
  destruct (list_events (get cl []) []) as [all_events|e]; simpl; [|reflexivity].
  rewrite main_process_spec, dashboard_process_spec. simpl.
  destruct all_events as [|event rest]; simpl; [auto|].
  destruct (DataFrame _) as [df|e]; reflexivity.
Qed.

(** The fetcher of the dashboard returns the frame that the fetcher of the
    batch run returns, whenever the latter returns; when the latter raises
    after the credentials are obtained, the former returns an empty frame
    and that error as its diagnostic. *)
Theorem dashboard_fetch_follows_cli g :
  (forall out, Main.get_google_calendar_events g = Ok out ->
     exists d, Dashboard.get_google_calendar_events g = Ok (fst out, d)) /\
  (credentials g = None ->
   forall e, Main.get_google_calendar_events g = Raise e ->
     Dashboard.get_google_calendar_events g = Ok ([], Some (CalendarError e))).
Proof.
  pose proof (try_body_compared g) as H.
  unfold Main.get_google_calendar_events, Dashboard.get_google_calendar_events.
  destruct (credentials g) as [e0|]; simpl.
  { split; [discriminate | discriminate]. }
  destruct (Main.try_body g) as [[df [d|]]|e].
  - destruct H as (-> & -> & _ & ->). split; [|discriminate].
    intros out [= <-]. eexists. reflexivity.
  - rewrite H. split; [|discriminate].
    intros out [= <-]. eexists. reflexivity.
  - rewrite H. split.
    + destruct e; try discriminate. intros out [= <-]. eexists. reflexivity.
    + intros _ e' He'. destruct e; try discriminate; now injection He' as <-.
Qed.

Lemma main_fetch_frame g out :
  Main.get_google_calendar_events g = Ok out ->
  exists d, Dashboard.get_google_calendar_events g = Ok (fst out, d).
Proof.
  pose proof (try_body_compared g) as H.
  unfold Main.get_google_calendar_events, Dashboard.get_google_calendar_events.
  destruct (credentials g) as [e0|]; simpl; [discriminate|].
  destruct (Main.try_body g) as [[df [d|]]|e].
  - destruct H as (-> & -> & _ & ->).
    intros [= <-]. eexists. reflexivity.
  - rewrite H. intros [= <-]. eexists. reflexivity.
  - rewrite H. destruct e; try discriminate.
    intros [= <-]. eexists. reflexivity.
Qed.

Lemma dashboard_fetch_witness :
  Dashboard.get_google_calendar_events
    (mk_google None None (Raise (OtherError "TransportError")))
  = Ok ([], Some (CalendarError (OtherError "TransportError"))).
Proof.
  exact (proj2 (dashboard_fetch_follows_cli
                  (mk_google None None (Raise (OtherError "TransportError"))))
               eq_refl (OtherError "TransportError") eq_refl).
Defined.

Lemma fetch_with_diagnostic_is_empty g df_events d :
  Main.get_google_calendar_events g = Ok (df_events, Some d) \/
  Dashboard.get_google_calendar_events g = Ok (df_events, Some d) ->
  df_events = [].
Proof.
  intros [H|H].
  - pose proof (try_body_compared g) as Hc.
    unfold Main.get_google_calendar_events in H.
    destruct (credentials g); simpl in H; [discriminate|].
    destruct (Main.try_body g) as [[df [d'|]]|e].
    + destruct Hc as (-> & _). now injection H as <-.
    + discriminate.
    + destruct e; try discriminate. now injection H as <-.
  - unfold Dashboard.get_google_calendar_events, Dashboard.try_body in H.
    destruct (credentials g); simpl in H; [discriminate|].
    destruct (run (build g)); simpl in H; [|now injection H as <-].
    destruct (calendarList g) as [cl|]; simpl in H; [|now injection H as <-].
    destruct (list_events _ _); simpl in H; [|now injection H as <-].
    destruct (DataFrame _); simpl in H; [discriminate | now injection H as <-].
Qed.

(** Every row of a frame returned by either fetcher comes from an attendee
    of an event of the calendars: the event has a creation date, which is
    the date of the row, the attendee is neither the user ([self]) nor a
    resource, and the e-mail of the row is the attendee's. *)
Theorem rows_come_from_qualifying_attendees g df_events d a :
  Main.get_google_calendar_events g = Ok (df_events, d) \/
  Dashboard.get_google_calendar_events g = Ok (df_events, d) ->
  In a df_events ->
  exists all_events event attendee,
    all_events_of g = Ok all_events /\ In event all_events /\
    Api.created event = Some (Api.Parseable (event_created_at a)) /\
    In attendee (get (Api.attendees event) []) /\
    get (Api.self attendee) false = false /\
    get (Api.resource attendee) false = false /\
    Api.email attendee = attendee_email a.
Proof.
  intros H Ha. destruct d as [d|].
  { rewrite (fetch_with_diagnostic_is_empty _ _ _ H) in Ha. contradiction. }
  assert (Hall : exists all_events,
    all_events_of g = Ok all_events /\
    Forall2 same_record (flat_map records_of_event all_events) df_events).
  { destruct H as [H|H];
      [now apply main_fetch_success | now apply dashboard_fetch_success]. }
  destruct Hall as (all_events & Hev & Hsame).
  destruct (Forall2_in_right _ _ _ _ Hsame Ha) as (p & Hp & He & Ht).
  apply in_flat_map in Hp as (event & Hin & Hp).
  unfold records_of_event in Hp.
  destruct (Api.created event) as [creation_date|] eqn:Ec; [|contradiction].
  apply in_map_iff in Hp as (attendee & <- & Hatt).
  apply filter_In in Hatt as [Hatt Hq]. simpl in He, Ht.
  unfold qualifies in Hq. apply andb_prop in Hq as [Hs Hr].
  apply negb_true_iff in Hs, Hr.
  exists all_events, event, attendee. rewrite Ht in Ec. auto 10.
Qed.

Lemma rows_witness :
  exists all_events event attendee,
    all_events_of
      (mk_google None None
         (Ok (Some [Api.mk_calendar (Some "primary"%string)
                      (Ok (Some [Api.mk_event (Some (Api.Parseable 5))
                                   (Some [Api.mk_attendee (Some "me@x.com"%string) (Some true) None;
                                          Api.mk_attendee (Some "a@x.com"%string) None None])]))])))
      = Ok all_events /\ In event all_events /\
    Api.created event = Some (Api.Parseable 5) /\
    In attendee (get (Api.attendees event) []) /\
    get (Api.self attendee) false = false /\
    get (Api.resource attendee) false = false /\
    Api.email attendee = Some "a@x.com"%string.
Proof.
  apply (rows_come_from_qualifying_attendees
    (mk_google None None
         (Ok (Some [Api.mk_calendar (Some "primary"%string)
                      (Ok (Some [Api.mk_event (Some (Api.Parseable 5))
                                   (Some [Api.mk_attendee (Some "me@x.com"%string) (Some true) None;
                                          Api.mk_attendee (Some "a@x.com"%string) None None])]))])))
    [mk_attendance (Some "a@x.com"%string) 5] None
    (mk_attendance (Some "a@x.com"%string) 5)).
  - left. reflexivity.
  - left. reflexivity.
Defined.

(** One creation date that [pd.to_datetime] rejects, on an event with an
    attendee that is kept, loses the whole fetch: the batch run ends with
    the [ValueError], the dashboard gets an empty frame and the error as
    diagnostic. *)
Theorem unparseable_date_discards_fetch g all_events event attendee :
  credentials g = None -> build g = None ->
  all_events_of g = Ok all_events ->
  In event all_events -> Api.created event = Some Api.Unparseable ->
  In attendee (get (Api.attendees event) []) -> qualifies attendee = true ->
  Main.get_google_calendar_events g = Raise ValueError /\
  Dashboard.get_google_calendar_events g = Ok ([], Some (CalendarError ValueError)).
Proof.
  intros Hc Hb Hev Hin Hcr Hatt Hq.
  pose proof (in_records_of_event _ _ _ _ Hin Hcr Hatt Hq) as Hp.
  assert (Hd : DataFrame (flat_map records_of_event all_events) = Raise ValueError).
  { unfold DataFrame. destruct (flat_map records_of_event all_events) eqn:E;
      [contradiction|].
    cbn [is_empty]. rewrite <- E in *.
    now apply (to_datetime_unparseable _ _ Hp). }
  unfold Main.get_google_calendar_events, Dashboard.get_google_calendar_events,
    Main.try_body, Dashboard.try_body.
  unfold all_events_of in Hev. rewrite Hc, Hb. simpl.
  destruct (calendarList g) as [cl|e]; simpl in *; [|discriminate].
  rewrite Hev. simpl.
  rewrite main_process_spec, dashboard_process_spec. simpl. rewrite Hd. simpl.
  destruct all_events; [contradiction|]. split; reflexivity.
Qed.

Lemma unparseable_date_witness :
  Main.get_google_calendar_events
    (mk_google None None
       (Ok (Some [Api.mk_calendar (Some "primary"%string)
                    (Ok (Some [Api.mk_event (Some (Api.Parseable 5))
                                 (Some [Api.mk_attendee (Some "a@x.com"%string) None None]);
                               Api.mk_event (Some Api.Unparseable)
                                 (Some [Api.mk_attendee (Some "b@x.com"%string) None None])]))])))
  = Raise ValueError.
Proof.
  eapply proj1.
  eapply (unparseable_date_discards_fetch _ _
            (Api.mk_event (Some Api.Unparseable)
               (Some [Api.mk_attendee (Some "b@x.com"%string) None None]))
            (Api.mk_attendee (Some "b@x.com"%string) None None)).
  - reflexivity.
  - reflexivity.
  - reflexivity.
  - right. left. reflexivity.
  - reflexivity.
  - left. reflexivity.
  - reflexivity.
Defined.

(** A calendar of the list that has no [id], after calendars whose events
    were listed, ends the fetch with the [KeyError] of [id]: the batch run
    ends with it, the dashboard gets an empty frame and the error as
    diagnostic; the events already listed are lost. *)
Theorem calendar_without_id g calendar_list_result before calendar after :
  credentials g = None -> build g = None ->
  calendarList g = Ok calendar_list_result ->
  get calendar_list_result [] = before ++ calendar :: after ->
  Forall listed before -> Api.id calendar = None ->
  Main.get_google_calendar_events g = Raise (KeyError "id") /\
  Dashboard.get_google_calendar_events g
    = Ok ([], Some (CalendarError (KeyError "id"))).
Proof.
  intros Hc Hb Hl Hg Hall Hid.
  unfold Main.get_google_calendar_events, Dashboard.get_google_calendar_events,
    Main.try_body, Dashboard.try_body.
  rewrite Hc, Hb, Hl. simpl. rewrite Hg.
  rewrite (list_events_no_id _ _ _ [] Hall Hid). split; reflexivity.
Qed.

Lemma calendar_without_id_witness :
  Main.get_google_calendar_events
    (mk_google None None
       (Ok (Some [Api.mk_calendar (Some "primary"%string)
                    (Ok (Some [Api.mk_event (Some (Api.Parseable 5))
                                 (Some [Api.mk_attendee (Some "a@x.com"%string) None None])]));
                  Api.mk_calendar None (Ok (Some []))])))
  = Raise (KeyError "id").
Proof.
  eapply proj1.
  eapply (calendar_without_id _ _
            [Api.mk_calendar (Some "primary"%string)
               (Ok (Some [Api.mk_event (Some (Api.Parseable 5))
                            (Some [Api.mk_attendee (Some "a@x.com"%string) None None])]))]
            (Api.mk_calendar None (Ok (Some []))) []).
  - reflexivity.
  - reflexivity.
  - reflexivity.
  - reflexivity.
  - constructor; [|constructor]. split; [discriminate|].
    eexists. reflexivity.
  - reflexivity.
Defined.

(** When every calendar has an [id] and its events are listed, the events of
    all the calendars are gathered in the order of the calendars; when
    there is none the batch run returns an empty frame with the notice
    that no event was found, and the dashboard an empty frame with the
    error of the missing column. *)
Theorem events_of_all_calendars g calendar_list_result :
  credentials g = None -> build g = None ->
  calendarList g = Ok calendar_list_result ->
  Forall listed (get calendar_list_result []) ->
  all_events_of g = Ok (flat_map calendar_items (get calendar_list_result [])) /\
  (flat_map calendar_items (get calendar_list_result []) = [] ->
   Main.get_google_calendar_events g = Ok ([], Some NoEventFound) /\
   Dashboard.get_google_calendar_events g
     = Ok ([], Some (CalendarError (KeyError "event_created_at")))).
Proof.
  intros Hc Hb Hl Hall.
  assert (Hev : all_events_of g
                = Ok (flat_map calendar_items (get calendar_list_result []))).
  { unfold all_events_of. rewrite Hl. simpl.
    now rewrite (list_events_listed _ [] Hall). }
  split; [exact Hev|]. intros Hnil.
  unfold Main.get_google_calendar_events, Dashboard.get_google_calendar_events,
    Main.try_body, Dashboard.try_body.
  unfold all_events_of in Hev. rewrite Hl in Hev. simpl in Hev.
  rewrite Hc, Hb, Hl. simpl. rewrite Hev, Hnil. split; reflexivity.
Qed.

Lemma events_of_all_calendars_witness :
  all_events_of
    (mk_google None None
       (Ok (Some [Api.mk_calendar (Some "work"%string)
                    (Ok (Some [Api.mk_event (Some (Api.Parseable 5)) None]));
                  Api.mk_calendar (Some "home"%string) (Ok None);
                  Api.mk_calendar (Some "team"%string)
                    (Ok (Some [Api.mk_event (Some (Api.Parseable 7)) None]))])))
  = Ok [Api.mk_event (Some (Api.Parseable 5)) None;
        Api.mk_event (Some (Api.Parseable 7)) None].
Proof.
  destruct (events_of_all_calendars
    (mk_google None None
       (Ok (Some [Api.mk_calendar (Some "work"%string)
                    (Ok (Some [Api.mk_event (Some (Api.Parseable 5)) None]));
                  Api.mk_calendar (Some "home"%string) (Ok None);
                  Api.mk_calendar (Some "team"%string)
                    (Ok (Some [Api.mk_event (Some (Api.Parseable 7)) None]))])))
    (Some [Api.mk_calendar (Some "work"%string)
             (Ok (Some [Api.mk_event (Some (Api.Parseable 5)) None]));
           Api.mk_calendar (Some "home"%string) (Ok None);
           Api.mk_calendar (Some "team"%string)
             (Ok (Some [Api.mk_event (Some (Api.Parseable 7)) None]))])
    eq_refl eq_refl eq_refl) as [H _].
  - repeat (constructor; [split; [discriminate | eexists; reflexivity]|]).
    constructor.
  - exact H.
Defined.

(** * The lead fetchers *)

Lemma leads_to_datetime_spec leads_data : forall df_leads,
  leads_to_datetime leads_data = Ok df_leads ->
  Forall2 same_lead leads_data df_leads.
Proof.
  induction leads_data as [|d rest IH]; simpl; intros df H.
  - injection H as <-. constructor.
  - destruct (data_created_at d) as [t|] eqn:Et; [|discriminate].
    destruct (leads_to_datetime rest) as [df'|e]; simpl in H; [|discriminate].
    injection H as <-. constructor; [|now apply IH].
    split; [reflexivity | exact Et].
Qed.

Lemma leads_to_datetime_error leads_data e :
  leads_to_datetime leads_data = Raise e ->
  e = ValueError /\
  exists d, In d leads_data /\ data_created_at d = Api.Unparseable.
Proof.
  induction leads_data as [|d rest IH]; simpl; [discriminate|].
  destruct (data_created_at d) as [t|] eqn:Et.
  - destruct (leads_to_datetime rest) as [df'|e']; simpl; [discriminate|].
    intros [= <-]. destruct (IH eq_refl) as (-> & d' & Hin & Hd).
    split; [reflexivity|]. exists d'. auto.
  - intros [= <-]. split; [reflexivity|]. exists d. auto.
Qed.

Lemma leads_to_datetime_unparseable leads_data d :
  In d leads_data -> data_created_at d = Api.Unparseable ->
  leads_to_datetime leads_data = Raise ValueError.
Proof.
  induction leads_data as [|q rest IH]; simpl; [contradiction|].
  intros [->|Hin] Hd.
  - now rewrite Hd.
  - destruct (data_created_at q); [|reflexivity].
    now rewrite (IH Hin Hd).
Qed.

(** The two lead fetchers compared, once the client is made: the same
    frame, and a diagnostic in the one exactly when there is one in the
    other. *)
Lemma lead_fetchers_compared s :
  create_client s = None ->
  exists df_leads d1 d2,
    Main.get_supabase_leads s = Ok (df_leads, d1) /\
    Dashboard.get_supabase_leads s = Ok (df_leads, d2) /\
    (d1 = None <-> d2 = None) /\ (d1 <> None -> df_leads = []).
Proof.
  intros Hc. unfold Main.get_supabase_leads, Dashboard.get_supabase_leads.
  rewrite Hc. simpl.
  destruct (execute s) as [data|e]; simpl.
  - destruct data as [|d rest].
    + simpl. do 3 eexists. repeat split; try reflexivity; discriminate.
    + cbn [is_empty]. destruct (leads_DataFrame (d :: rest)) as [df|e]; simpl;
        do 3 eexists; repeat split; try reflexivity; try discriminate;
        intros H; congruence.
  - do 3 eexists. repeat split; try reflexivity; discriminate.
Qed.

(** Once the client is made both lead fetchers return, and return the same
    frame.  For a table with rows whose dates are all accepted the frame
    has one lead for every row, in the order of the rows, with the e-mail
    of the row and its date parsed.  For a table without row the frame is
    empty: the batch run notes that no lead was found, the dashboard
    reports the error of the missing column [created_at].  When the query
    raises, the frame is empty and the error is the diagnostic of both. *)
Theorem lead_fetchers_agree s :
  create_client s = None ->
  exists df_leads d1 d2,
    Main.get_supabase_leads s = Ok (df_leads, d1) /\
    Dashboard.get_supabase_leads s = Ok (df_leads, d2) /\
    (forall leads_data, execute s = Ok leads_data ->
       (d1 = None -> d2 = None /\ leads_data <> [] /\
                     Forall2 same_lead leads_data df_leads) /\
       (leads_data = [] ->
          df_leads = [] /\ d1 = Some NoLeadFound /\
          d2 = Some (SupabaseError (KeyError "created_at")))) /\
    (forall e, execute s = Raise e ->
       df_leads = [] /\ d1 = Some (SupabaseError e) /\
       d2 = Some (SupabaseError e)).
Proof.
  intros Hc. unfold Main.get_supabase_leads, Dashboard.get_supabase_leads.
  rewrite Hc. simpl.
  destruct (execute s) as [data|e]; simpl.
  - destruct data as [|d rest].
    + simpl. do 3 eexists. split; [reflexivity|]. split; [reflexivity|].
      split; [|discriminate]. intros leads_data [= <-].
      split; [discriminate | auto].
    + cbn [is_empty]. unfold leads_DataFrame. cbn [is_empty].
      destruct (leads_to_datetime (d :: rest)) as [df|e] eqn:E; simpl;
        do 3 eexists; (split; [reflexivity|]); (split; [reflexivity|]);
        (split; [|discriminate]); intros leads_data [= <-];
        (split; [|discriminate]).
      * intros _. split; [reflexivity|]. split; [discriminate|].
        now apply leads_to_datetime_spec.
      * discriminate.
  - do 3 eexists. split; [reflexivity|]. split; [reflexivity|].
    split; [discriminate|]. intros e' [= <-]. auto.
Qed.

Lemma lead_fetchers_witness :
  Main.get_supabase_leads
    (mk_supabase None
       (Ok [mk_lead_data (Some "a@x.com"%string) (Api.Parseable 10);
            mk_lead_data (Some "b@x.com"%string) (Api.Parseable 20)]))
  = Ok ([mk_lead (Some "a@x.com"%string) 10; mk_lead (Some "b@x.com"%string) 20], None) /\
  exists df_leads d1 d2,
    Main.get_supabase_leads
      (mk_supabase None
         (Ok [mk_lead_data (Some "a@x.com"%string) (Api.Parseable 10);
              mk_lead_data (Some "b@x.com"%string) (Api.Parseable 20)]))
    = Ok (df_leads, d1) /\
    Dashboard.get_supabase_leads
      (mk_supabase None
         (Ok [mk_lead_data (Some "a@x.com"%string) (Api.Parseable 10);
              mk_lead_data (Some "b@x.com"%string) (Api.Parseable 20)]))
    = Ok (df_leads, d2).
Proof.
  split; [reflexivity|].
  destruct (lead_fetchers_agree
    (mk_supabase None
       (Ok [mk_lead_data (Some "a@x.com"%string) (Api.Parseable 10);
            mk_lead_data (Some "b@x.com"%string) (Api.Parseable 20)])) eq_refl)
    as (df & d1 & d2 & H1 & H2 & _).
  exists df, d1, d2. split; [exact H1 | exact H2].
Defined.

(** One creation date of a lead that [pd.to_datetime] rejects loses all the
    leads: both fetchers return an empty frame with the [ValueError] as
    diagnostic. *)
Theorem unparseable_lead_date_discards_leads s leads_data d :
  create_client s = None -> execute s = Ok leads_data ->
  In d leads_data -> data_created_at d = Api.Unparseable ->
  Main.get_supabase_leads s = Ok ([], Some (SupabaseError ValueError)) /\
  Dashboard.get_supabase_leads s = Ok ([], Some (SupabaseError ValueError)).
Proof.
  intros Hc He Hin Hd.
  unfold Main.get_supabase_leads, Dashboard.get_supabase_leads, leads_DataFrame.
  rewrite Hc, He. simpl.
  destruct leads_data as [|x rest]; [contradiction|]. cbn [is_empty].
  rewrite (leads_to_datetime_unparseable _ _ Hin Hd). split; reflexivity.
Qed.

Lemma unparseable_lead_date_witness :
  Main.get_supabase_leads
    (mk_supabase None
       (Ok [mk_lead_data (Some "a@x.com"%string) (Api.Parseable 10);
            mk_lead_data (Some "b@x.com"%string) Api.Unparseable]))
  = Ok ([], Some (SupabaseError ValueError)).
Proof.
  eapply proj1.
  eapply (unparseable_lead_date_discards_leads _ _
            (mk_lead_data (Some "b@x.com"%string) Api.Unparseable)).
  - reflexivity.
  - reflexivity.
  - right. left. reflexivity.
  - reflexivity.
Defined.

(** * The two surfaces, from the stores to the display *)

Lemma print_result_present o n days hours minutes :
  print_result o = Some (n, (days, hours, minutes)) ->
  present o = Metrics days hours n.
Proof.
  destruct o as [| | |m df]; try discriminate.
  cbn [print_result present]. intros H.
  pose proof (f_equal (fun x => match x with
                                | Some y => fst y
                                | None => 0%nat
                                end) H) as Hn.
  pose proof (f_equal (fun x => match x with
                                | Some y => fst (snd y)
                                | None => (0, 0)
                                end) H) as Hc.
  cbn beta iota in Hn, Hc. cbn [fst snd] in Hn, Hc.
  rewrite cli_metric_floor in Hc. rewrite Hc, Hn. reflexivity.
Qed.

Lemma print_result_none o :
  print_result o = None -> present o = Warning o.
Proof.
  destruct o; simpl; [reflexivity | reflexivity | reflexivity | discriminate].
Qed.

Lemma script_runs mean sort_values s g r :
  Main.script mean sort_values s g = Ok r ->
  create_client s = None /\
  exists df_leads d1 df_events d2,
    Main.get_supabase_leads s = Ok (df_leads, d1) /\
    Main.get_google_calendar_events g = Ok (df_events, d2) /\
    r = print_result (aggregate mean sort_values df_leads df_events).
Proof.
  unfold Main.script, Main.main.
  destruct (create_client s) as [e|] eqn:Hc; simpl; [discriminate|].
  destruct (lead_fetchers_compared s Hc) as (df & d1 & d2 & H1 & _).
  rewrite H1. simpl.
  destruct (Main.get_google_calendar_events g) as [[dfe de]|e]; simpl;
    [|discriminate].
  intros [= <-]. split; [reflexivity|].
  exists df, d1, dfe, de. auto.
Qed.

Lemma click_follows_script mean sort_values s g df_leads d1 df_events d2 :
  create_client s = None ->
  Main.get_supabase_leads s = Ok (df_leads, d1) ->
  Main.get_google_calendar_events g = Ok (df_events, d2) ->
  Dashboard.click mean sort_values s g
  = Ok (present (aggregate mean sort_values df_leads df_events)).
Proof.
  intros Hc Hl Hg. unfold Dashboard.click, Dashboard.button.
  destruct (lead_fetchers_compared s Hc) as (df & e1 & e2 & H1 & H2 & _).
  rewrite Hl in H1. injection H1 as <- <-. rewrite H2. simpl.
  destruct (main_fetch_frame _ _ Hg) as (d & Hd). rewrite Hd. reflexivity.
Qed.

(** Whenever the batch run prints the count and the days, hours and minutes
    of the mean, a click on the button of the dashboard, on the same
    answers of the lead store and of the calendar service, shows the same
    count, days and hours; whenever the batch run prints a notice only,
    the dashboard shows a warning. *)
Theorem dashboard_shows_what_cli_prints mean sort_values s g :
  (forall n days hours minutes,
     Main.script mean sort_values s g = Ok (Some (n, (days, hours, minutes))) ->
     Dashboard.click mean sort_values s g = Ok (Metrics days hours n)) /\
  (Main.script mean sort_values s g = Ok None ->
   exists notice, Dashboard.click mean sort_values s g = Ok (Warning notice)).
Proof.
  split.
  - intros n days hours minutes H.
    destruct (script_runs _ _ _ _ _ H) as (Hc & df & d1 & dfe & d2 & Hl & Hg & Hr).
    rewrite (click_follows_script _ _ _ _ _ _ _ _ Hc Hl Hg). f_equal.
    now apply print_result_present with minutes.
  - intros H.
    destruct (script_runs _ _ _ _ _ H) as (Hc & df & d1 & dfe & d2 & Hl & Hg & Hr).
    rewrite (click_follows_script _ _ _ _ _ _ _ _ Hc Hl Hg).
    eexists. f_equal. now apply print_result_none.
Qed.

Lemma dashboard_shows_witness :
  Dashboard.click exact_mean insertion_sort
    (mk_supabase None (Ok [mk_lead_data (Some "a@x.com"%string) (Api.Parseable 0)]))
    (mk_google None None
       (Ok (Some [Api.mk_calendar (Some "primary"%string)
                    (Ok (Some [Api.mk_event (Some (Api.Parseable 221400000000000))
                                 (Some [Api.mk_attendee (Some "a@x.com"%string) None None])]))])))
  = Ok (Metrics 2 13 1).
Proof.
  apply (proj1 (dashboard_shows_what_cli_prints exact_mean insertion_sort _ _)) with 30.
  reflexivity.
Defined.



(** * Concrete runs for the properties above *)

Lemma reverse_then_sort_perm df : Permutation (insertion_sort (rev df)) df.
Proof.
  eapply perm_trans; [apply insertion_sort_perm|].
  apply Permutation_sym, Permutation_rev.
Qed.


Lemma records_sorted_witness :
  StronglySorted earlier_event
    (records (aggregate exact_mean insertion_sort
       [mk_lead (Some "a@x.com"%string) 10; mk_lead (Some "b@x.com"%string) 10; mk_lead (Some "c@x.com"%string) 10]
       [mk_attendance (Some "a@x.com"%string) 40;
        mk_attendance (Some "b@x.com"%string) 20;
        mk_attendance (Some "c@x.com"%string) 30])).
Proof.
  exact (records_sorted_by_event exact_mean insertion_sort
           insertion_sort_perm insertion_sort_sorted _ _).
Defined.

Lemma sample_count_witness :
  (sample_count (aggregate exact_mean insertion_sort
     [mk_lead (Some "a@x.com"%string) 10; mk_lead (Some "a@x.com"%string) 12; mk_lead (Some "b@x.com"%string) 10]
     [mk_attendance (Some "a@x.com"%string) 40;
      mk_attendance (Some "b@x.com"%string) 20]) <= 2)%nat.
Proof.
  exact (proj2 (proj2 (sample_count_bounds exact_mean insertion_sort
                         insertion_sort_perm insertion_sort_sorted
     [mk_lead (Some "a@x.com"%string) 10; mk_lead (Some "a@x.com"%string) 12; mk_lead (Some "b@x.com"%string) 10]
     [mk_attendance (Some "a@x.com"%string) 40;
      mk_attendance (Some "b@x.com"%string) 20]))).
Defined.

Lemma order_witness :
  sample_count (aggregate exact_mean insertion_sort
    [mk_lead (Some "a@x.com"%string) 10; mk_lead (Some "b@x.com"%string) 20]
    [mk_attendance (Some "a@x.com"%string) 30;
     mk_attendance (Some "b@x.com"%string) 30;
     mk_attendance (Some "a@x.com"%string) 25])
  = sample_count (aggregate exact_mean (fun df => insertion_sort (rev df))
    [mk_lead (Some "b@x.com"%string) 20; mk_lead (Some "a@x.com"%string) 10]
    [mk_attendance (Some "a@x.com"%string) 25;
     mk_attendance (Some "a@x.com"%string) 30;
     mk_attendance (Some "b@x.com"%string) 30]).
Proof.
  refine (proj1 (proj2 (result_independent_of_order
    exact_mean insertion_sort (fun df => insertion_sort (rev df))
    insertion_sort_perm insertion_sort_sorted
    reverse_then_sort_perm (fun df => insertion_sort_sorted (rev df))
    [mk_lead (Some "a@x.com"%string) 10; mk_lead (Some "b@x.com"%string) 20]
    [mk_lead (Some "b@x.com"%string) 20; mk_lead (Some "a@x.com"%string) 10]
    [mk_attendance (Some "a@x.com"%string) 30;
     mk_attendance (Some "b@x.com"%string) 30;
     mk_attendance (Some "a@x.com"%string) 25]
    [mk_attendance (Some "a@x.com"%string) 25;
     mk_attendance (Some "a@x.com"%string) 30;
     mk_attendance (Some "b@x.com"%string) 30] _ _ _))).
  - simpl. constructor.
    + intros [H|[]]. discriminate H.
    + constructor; [intros [] | constructor].
  - apply perm_swap.
  - eapply perm_trans; [apply perm_skip, perm_swap|].
    apply perm_swap.
Defined.
